(** * Clinic front-desk backend: walk-in queue and appointment conflict check

    Shallow embedding of [QueueService] / [QueueController]
    (queue.service.ts, queue.controller.ts), the [Queue] entity, and of
    [AppointmentService.create] with its [CreateAppointmentDto].

    The TypeORM repositories are modelled as tables: a list of rows in storage
    order together with the auto-increment counter of the primary key.
    Every service method is a function from the database to a result and a
    database, so that a thrown exception and the writes made before it are
    both visible. *)

From Stdlib Require Import ZArith List String Ascii Bool Lia Sorted Permutation.
From Stdlib Require Import DecimalString.
From Stdlib Require Import PrimFloat FloatOps SpecFloat Uint63.
Import ListNotations.

Local Open Scope string_scope.
Local Open Scope Z_scope.

(** ** JavaScript helpers *)

Module JS.

(** Template-literal rendering of an integral number. *)
Definition toString (n : Z) : string := NilZero.string_of_int (Z.to_int n).

(** [Array.prototype.includes] on an array of strings. *)
Definition includes (xs : list string) (x : string) : bool :=
  existsb (String.eqb x) xs.

(** A count or an id as an IEEE double (exact below 2^53). *)
Definition toNumber (n : Z) : float := PrimFloat.of_uint63 (Uint63.of_Z n).

(** [Math.round]: the nearest integer, ties towards +infinity.  Computed
    exactly on the binary expansion of the double; not-a-number and the
    infinities, which the callers never produce, are mapped to 0. *)
Definition Math_round (x : float) : Z :=
  match Prim2SF x with
  | S754_finite s m e =>
      let v := if s then Z.neg m else Z.pos m in
      if 0 <=? e then v * 2 ^ e
      else (2 * v + 2 ^ (- e)) / 2 ^ (1 - e)
  | _ => 0
  end.

(** [x || d] on a value that is a string or undefined: the empty string
    and undefined are falsy. *)
Definition or (x : option string) (d : string) : string :=
  match x with
  | Some EmptyString => d
  | Some v => v
  | None => d
  end.

(** Truthiness of a string or undefined. *)
Definition truthy (x : option string) : bool :=
  match x with
  | Some EmptyString => false
  | Some _ => true
  | None => false
  end.

End JS.

(** ** HTTP exceptions and the service monad *)

(** The status carried by a thrown exception: [BadRequestException] and
    [HttpException(_, BAD_REQUEST)] are 400, [NotFoundException] is 404.
    Message texts are not modelled. *)
Inductive HttpException : Type :=
| BadRequest
| NotFound
| InternalServerError.

Inductive Result (A : Type) : Type :=
| Ok (a : A)
| Throw (e : HttpException).

Arguments Ok {A} a.
Arguments Throw {A} e.

(** ** Entities *)

Module Patient.
(** patient.entity.ts; the columns phone, email, age, gender and createdAt are
    never read by the code modelled here. *)
Record t : Type := mk { id : Z; name : string }.
End Patient.

Module Doctor.
(** doctor.entity.ts, restricted to the columns the appointment service reads. *)
Record t : Type := mk { id : Z; name : string; isActive : bool }.
End Doctor.

Module Queue.
(** The [Queue] entity: [status] and [priority] are plain string columns. *)
Record t : Type := mk {
  id : Z;
  queueNumber : Z;
  patientId : Z;
  status : string;
  priority : string;
  createdAt : Z
}.
End Queue.

Module Appointment.
Record t : Type := mk {
  id : Z;
  doctorId : Z;
  patientId : Z;
  appointmentDateTime : Z;
  status : string;
  notes : option string;
  createdAt : Z
}.
End Appointment.

(** The database behind the repositories.  Each table keeps its rows in
    storage order; [queueSeq] and [appointmentSeq] are the AUTO_INCREMENT
    counters of the two primary keys. *)
Record Db : Type := mkDb {
  patients : list Patient.t;
  doctors : list Doctor.t;
  queue : list Queue.t;
  queueSeq : Z;
  appointments : list Appointment.t;
  appointmentSeq : Z
}.

Definition Svc (A : Type) : Type := Db -> Result A * Db.

Definition ret {A : Type} (a : A) : Svc A := fun db => (Ok a, db).

Definition throw {A : Type} (e : HttpException) : Svc A := fun db => (Throw e, db).

Definition bind {A B : Type} (m : Svc A) (k : A -> Svc B) : Svc B :=
  fun db =>
    match m db with
    | (Ok a, db') => k a db'
    | (Throw e, db') => (Throw e, db')
    end.

Notation "x <- m ;; k" := (bind m (fun x => k))
  (at level 61, m at next level, right associativity).

(** [try { ... } catch (error) { throw new HttpException(..., status) }] *)
Definition catchAs {A : Type} (status : HttpException) (m : Svc A) : Svc A :=
  fun db =>
    match m db with
    | (Ok a, db') => (Ok a, db')
    | (Throw _, db') => (Throw status, db')
    end.

(** ** The queue repository *)

Module QueueRepository.

(** [order: { priority: 'DESC', queueNumber: 'ASC' }].  [priority] is a string
    column, so the database compares the priority texts; then queue numbers.
    [precedes a b] holds when [a] may be listed before [b]. *)
Definition precedes (a b : Queue.t) : bool :=
  match String.compare (Queue.priority a) (Queue.priority b) with
  | Gt => true
  | Lt => false
  | Eq => Queue.queueNumber a <=? Queue.queueNumber b
  end.

Fixpoint insert (x : Queue.t) (l : list Queue.t) : list Queue.t :=
  match l with
  | [] => [x]
  | y :: l' => if precedes x y then x :: y :: l' else y :: insert x l'
  end.

(** ORDER BY as a stable sort of the rows in storage order. *)
Definition orderBy (l : list Queue.t) : list Queue.t := fold_right insert [] l.

(** [find({ where, order })] *)
Definition find (where_ : Queue.t -> bool) : Svc (list Queue.t) :=
  fun db => (Ok (orderBy (filter where_ (queue db))), db).

(** [findOne({ where })], no ordering: the first matching row. *)
Definition findOne (where_ : Queue.t -> bool) : Svc (option Queue.t) :=
  fun db => (Ok (List.find where_ (queue db)), db).

(** [findOne({ where, order })]: the first row of the ordered selection. *)
Definition findOneOrdered (where_ : Queue.t -> bool) : Svc (option Queue.t) :=
  fun db => (Ok (hd_error (orderBy (filter where_ (queue db)))), db).

(** [count({ where })] *)
Definition count (where_ : Queue.t -> bool) : Svc Z :=
  fun db => (Ok (Z.of_nat (List.length (filter where_ (queue db)))), db).

(** [save(create({ queueNumber, patientId, status, priority }))]: a new row;
    the database supplies the id and the creation timestamp. *)
Definition insertRow (now queueNumber patientId : Z) (status priority : string)
  : Svc Queue.t :=
  fun db =>
    let row := Queue.mk (queueSeq db) queueNumber patientId status priority now in
    (Ok row,
     mkDb (patients db) (doctors db) (queue db ++ [row]) (queueSeq db + 1)
          (appointments db) (appointmentSeq db)).

Definition replaceRow (e r : Queue.t) : Queue.t :=
  if Queue.id r =? Queue.id e then e else r.

(** [save(entity)] for an entity that was loaded from the table: UPDATE by
    primary key. *)
Definition save (e : Queue.t) : Svc Queue.t :=
  fun db =>
    (Ok e,
     mkDb (patients db) (doctors db) (map (replaceRow e) (queue db)) (queueSeq db)
          (appointments db) (appointmentSeq db)).

(** [remove(entity)]: DELETE by primary key. *)
Definition remove (e : Queue.t) : Svc unit :=
  fun db =>
    (Ok tt,
     mkDb (patients db) (doctors db)
          (filter (fun r => negb (Queue.id r =? Queue.id e)) (queue db))
          (queueSeq db) (appointments db) (appointmentSeq db)).

End QueueRepository.

Module PatientRepository.

Definition findOne (id : Z) : Svc (option Patient.t) :=
  fun db => (Ok (List.find (fun p => Patient.id p =? id) (patients db)), db).

End PatientRepository.

(** [where] clauses used by the queue service. *)
Definition whereAll (_ : Queue.t) : bool := true.

Definition whereId (id : Z) (q : Queue.t) : bool := Queue.id q =? id.

Definition whereStatus (status : string) (q : Queue.t) : bool :=
  String.eqb (Queue.status q) status.

Definition wherePriority (priority : string) (q : Queue.t) : bool :=
  String.eqb (Queue.priority q) priority.

Definition wherePatientStatus (patientId : Z) (status : string) (q : Queue.t) : bool :=
  (Queue.patientId q =? patientId) && String.eqb (Queue.status q) status.

Definition wherePriorityStatus (priority status : string) (q : Queue.t) : bool :=
  String.eqb (Queue.priority q) priority && String.eqb (Queue.status q) status.

(** ** queue.service.ts *)

Module QueueService.

Definition validStatuses : list string :=
  ["waiting"; "with-doctor"; "completed"; "cancelled"].

Definition validPriorities : list string := ["normal"; "urgent"; "emergency"].

(** The object literal [statusMapping], read at a key. *)
Definition statusMapping (status : string) : option string :=
  if String.eqb status "waiting" then Some "waiting"
  else if String.eqb status "with-doctor" then Some "with_doctor"
  else if String.eqb status "completed" then Some "completed"
  else if String.eqb status "cancelled" then Some "cancelled"
  else None.

(** [addToQueue(patientId, priority = 'normal', notes?)].  The final
    [findOne] by id may in principle yield null, hence the option. *)
Definition addToQueue (now patientId : Z) (priority notes : option string)
  : Svc (option Queue.t) :=
  let priority := match priority with Some p => p | None => "normal" end in
  patient <- PatientRepository.findOne patientId ;;
  match patient with
  | None => throw NotFound
  | Some _ =>
      existingQueue <- QueueRepository.findOne (wherePatientStatus patientId "waiting") ;;
      match existingQueue with
      | Some _ => throw BadRequest
      | None =>
          queueNumber <-
            (if String.eqb priority "emergency" then ret 0
             else queueCount <- QueueRepository.count whereAll ;; ret (queueCount + 1)) ;;
          savedEntry <-
            QueueRepository.insertRow now queueNumber patientId "waiting" priority ;;
          QueueRepository.findOne (whereId (Queue.id savedEntry))
      end
  end.

Definition addEmergencyPatient (now patientId : Z) : Svc (option Queue.t) :=
  patient <- PatientRepository.findOne patientId ;;
  match patient with
  | None => throw NotFound
  | Some _ =>
      existingQueue <- QueueRepository.findOne (wherePatientStatus patientId "waiting") ;;
      match existingQueue with
      | Some existingQueue =>
          saved <-
            QueueRepository.save
              (Queue.mk (Queue.id existingQueue) 0 (Queue.patientId existingQueue)
                        (Queue.status existingQueue) "emergency"
                        (Queue.createdAt existingQueue)) ;;
          ret (Some saved)
      | None =>
          savedEntry <- QueueRepository.insertRow now 0 patientId "waiting" "emergency" ;;
          QueueRepository.findOne (whereId (Queue.id savedEntry))
      end
  end.

Definition updateStatus (queueId : Z) (status : string) : Svc Queue.t :=
  if negb (JS.includes validStatuses status) then throw BadRequest
  else
    queueEntry <- QueueRepository.findOne (whereId queueId) ;;
    match queueEntry with
    | None => throw NotFound
    | Some queueEntry =>
        QueueRepository.save
          (Queue.mk (Queue.id queueEntry) (Queue.queueNumber queueEntry)
                    (Queue.patientId queueEntry)
                    (JS.or (statusMapping status) status)
                    (Queue.priority queueEntry) (Queue.createdAt queueEntry))
    end.

Definition updatePriority (queueId : Z) (priority : string) : Svc Queue.t :=
  if negb (JS.includes validPriorities priority) then throw BadRequest
  else
    queueEntry <- QueueRepository.findOne (whereId queueId) ;;
    match queueEntry with
    | None => throw NotFound
    | Some queueEntry =>
        queueNumber <-
          (if String.eqb priority "emergency" then ret 0
           else if String.eqb priority "urgent" && (Queue.queueNumber queueEntry =? 0)
           then queueCount <- QueueRepository.count (wherePriority "urgent") ;;
                ret (queueCount + 1)
           else ret (Queue.queueNumber queueEntry)) ;;
        QueueRepository.save
          (Queue.mk (Queue.id queueEntry) queueNumber (Queue.patientId queueEntry)
                    (Queue.status queueEntry) priority (Queue.createdAt queueEntry))
    end.

Definition getNextPatient : Svc (option Queue.t) :=
  QueueRepository.findOneOrdered (whereStatus "waiting").

Definition removeFromQueue (queueId : Z) : Svc Queue.t :=
  queueEntry <- QueueRepository.findOne (whereId queueId) ;;
  match queueEntry with
  | None => throw NotFound
  | Some queueEntry =>
      _ <- QueueRepository.remove queueEntry ;;
      ret queueEntry
  end.

(** [calculateWaitTime(position)] *)
Definition calculateWaitTime (position : Z) : string :=
  let minutes := position * 15 in
  let hours := minutes / 60 in
  let remainingMinutes := Z.rem minutes 60 in
  if 0 <? hours then JS.toString hours ++ "h " ++ JS.toString remainingMinutes ++ "m"
  else JS.toString remainingMinutes ++ "m".

(** [calculateAverageWaitTime(waitingCount)] *)
Definition calculateAverageWaitTime (waitingCount : Z) : string :=
  let avgMinutes := waitingCount * 15 in
  let hours := avgMinutes / 60 in
  let minutes := Z.rem avgMinutes 60 in
  if 0 <? hours then JS.toString hours ++ "h " ++ JS.toString minutes ++ "m"
  else JS.toString minutes ++ "m".

(** [calculateTimeInQueue(createdAt)], with [new Date()] read as [now]
    (milliseconds). *)
Definition calculateTimeInQueue (now createdAt : Z) : string :=
  let diffMs := now - createdAt in
  let diffMinutes := diffMs / (1000 * 60) in
  let hours := diffMinutes / 60 in
  let minutes := Z.rem diffMinutes 60 in
  if 0 <? hours then JS.toString hours ++ "h " ++ JS.toString minutes ++ "m ago"
  else JS.toString minutes ++ "m ago".

Definition getStatusColor (status : string) : string :=
  if String.eqb status "waiting" then "#fbbf24"
  else if String.eqb status "with_doctor" then "#3b82f6"
  else if String.eqb status "with-doctor" then "#3b82f6"
  else if String.eqb status "completed" then "#10b981"
  else if String.eqb status "cancelled" then "#ef4444"
  else "#6b7280".

Definition getPriorityBadge (priority : string) : string :=
  if String.eqb priority "emergency" then "🆘 EMERGENCY"
  else if String.eqb priority "urgent" then "🚨 URGENT"
  else "⏳ Normal".

(** One element of the enhanced queue: the entry spread into a fresh object
    together with the computed fields. *)
Record EnhancedEntry : Type := mkEnhanced {
  entry : Queue.t;
  position : Z;
  estimatedWaitTime : string;
  statusColor : string;
  priorityBadge : string;
  isUrgent : bool;
  timeInQueue : string
}.

(** [queue.map((entry, index) => ...)], [index] counted from [index0]. *)
Fixpoint enhance (now : Z) (index0 : Z) (l : list Queue.t) : list EnhancedEntry :=
  match l with
  | [] => []
  | e :: l' =>
      mkEnhanced e (index0 + 1) (calculateWaitTime index0)
                 (getStatusColor (Queue.status e))
                 (getPriorityBadge (Queue.priority e))
                 (String.eqb (Queue.priority e) "urgent"
                  || String.eqb (Queue.priority e) "emergency")
                 (calculateTimeInQueue now (Queue.createdAt e))
      :: enhance now (index0 + 1) l'
  end.

Definition getEnhancedQueue (now : Z) : Svc (list EnhancedEntry) :=
  queue <- QueueRepository.find (whereStatus "waiting") ;;
  ret (enhance now 0 queue).

Record QueueStats : Type := mkStats {
  total : Z;
  waiting : Z;
  withDoctor : Z;
  completed : Z;
  urgent : Z;
  emergency : Z;
  averageWaitTime : string;
  efficiency : Z
}.

(** [Math.round((completed / Math.max(total, 1)) * 100)] in double
    arithmetic. *)
Definition percentage (part whole : Z) : Z :=
  JS.Math_round
    (PrimFloat.mul
       (PrimFloat.div (JS.toNumber part) (JS.toNumber (Z.max whole 1)))
       (JS.toNumber 100)).

Definition getQueueStats : Svc QueueStats :=
  total <- QueueRepository.count whereAll ;;
  waiting <- QueueRepository.count (whereStatus "waiting") ;;
  withDoctor <- QueueRepository.count (whereStatus "with_doctor") ;;
  completed <- QueueRepository.count (whereStatus "completed") ;;
  urgent <- QueueRepository.count (wherePriorityStatus "urgent" "waiting") ;;
  emergency <- QueueRepository.count (wherePriorityStatus "emergency" "waiting") ;;
  ret (mkStats total waiting withDoctor completed urgent emergency
               (calculateAverageWaitTime waiting)
               (percentage completed total)).

End QueueService.

(** ** queue.controller.ts *)

Module QueueController.

(** [result.patient?.name || 'Unknown Patient'], the relation being the
    patient row the entry points to. *)
Definition patientName (e : Queue.t) : Svc string :=
  patient <- PatientRepository.findOne (Queue.patientId e) ;;
  ret (JS.or (option_map Patient.name patient) "Unknown Patient").

(** Body of POST /queue. *)
Record AddToQueueDto : Type := mkAddToQueueDto {
  dto_patientId : option Z;
  dto_priority : option string;
  dto_notes : option string
}.

Record AddToQueueResponse : Type := mkAddToQueueResponse {
  added_queueEntry : Queue.t;
  added_announcement : string
}.

Definition addToQueue (now : Z) (addToQueueDto : AddToQueueDto)
  : Svc AddToQueueResponse :=
  catchAs BadRequest
    (match dto_patientId addToQueueDto with
     | None => throw BadRequest
     | Some patientId =>
         if (patientId =? 0) || (patientId <=? 0) then throw BadRequest
         else
           let priority := dto_priority addToQueueDto in
           if JS.truthy priority
              && negb (JS.includes QueueService.validPriorities (JS.or priority ""))
           then throw BadRequest
           else
             result <-
               QueueService.addToQueue now patientId
                 (Some (JS.or priority "normal")) (dto_notes addToQueueDto) ;;
             match result with
             | None => throw InternalServerError (* TypeError on result.patient *)
             | Some result =>
                 name <- patientName result ;;
                 ret (mkAddToQueueResponse result
                        ("Patient " ++ name ++ " has been added to the queue with "
                         ++ JS.or priority "normal" ++ " priority"))
             end
     end).

Definition getNextAction (status : string) : string :=
  if String.eqb status "with-doctor"
  then "Patient is now with doctor - monitor consultation progress"
  else if String.eqb status "completed"
  then "Consultation completed - patient can proceed to checkout"
  else if String.eqb status "cancelled"
  then "Appointment cancelled - follow up with patient if needed"
  else if String.eqb status "waiting"
  then "Patient is waiting - ensure comfortable seating area"
  else "Monitor patient status".

Record UpdateStatusResponse : Type := mkUpdateStatusResponse {
  updated_queueEntry : Queue.t;
  updated_nextAction : string
}.

(** PUT /queue/:id/status with body [{ status }]. *)
Definition updateStatus (id : Z) (status : option string) : Svc UpdateStatusResponse :=
  catchAs BadRequest
    (if negb (JS.truthy status) then throw BadRequest
     else
       let status := JS.or status "" in
       if negb (JS.includes ["waiting"; "with-doctor"; "completed"; "cancelled"] status)
       then throw BadRequest
       else
         result <- QueueService.updateStatus id status ;;
         ret (mkUpdateStatusResponse result (getNextAction status))).

End QueueController.

(** ** appointment.service.ts, create-appointment.dto.ts, appointment.controller.ts *)

Module AppointmentRepository.

(** [findOne({ where: { doctorId, appointmentDateTime, status } })] *)
Definition findOneBySlot (doctorId appointmentDate : Z) (status : string)
  : Svc (option Appointment.t) :=
  fun db =>
    (Ok (List.find
           (fun a =>
              (Appointment.doctorId a =? doctorId)
              && (Appointment.appointmentDateTime a =? appointmentDate)
              && String.eqb (Appointment.status a) status)
           (appointments db)),
     db).

(** [save(create({ doctorId, patientId, appointmentDateTime, notes, status }))] *)
Definition insertRow (now doctorId patientId appointmentDate : Z)
  (notes : option string) (status : string) : Svc Appointment.t :=
  fun db =>
    let row :=
      Appointment.mk (appointmentSeq db) doctorId patientId appointmentDate
                     status notes now in
    (Ok row,
     mkDb (patients db) (doctors db) (queue db) (queueSeq db)
          (appointments db ++ [row]) (appointmentSeq db + 1)).

End AppointmentRepository.

Module DoctorRepository.

Definition findOne (id : Z) : Svc (option Doctor.t) :=
  fun db => (Ok (List.find (fun d => Doctor.id d =? id) (doctors db)), db).

End DoctorRepository.

(** The request body of POST /appointments and the [CreateAppointmentDto]
    instance built from it; a field that may be absent is an option. *)
Record CreateAppointmentDto : Type := mkCreateAppointmentDto {
  doctorId : option Z;
  patientId : option Z;
  appointmentDateTime : option string;
  notes : option string;
  status : option string
}.

(** [new CreateAppointmentDto()]: the only property initialiser is
    [status = 'booked']. *)
Definition newCreateAppointmentDto : CreateAppointmentDto :=
  mkCreateAppointmentDto None None None None (Some "booked").

Definition assign {A : Type} (fromBody current : option A) : option A :=
  match fromBody with
  | Some v => Some v
  | None => current
  end.

(** [ValidationPipe({ transform: true })]: the body's own keys are copied
    onto a fresh instance, so a key the body lacks keeps its initialiser. *)
Definition plainToInstance (body : CreateAppointmentDto) : CreateAppointmentDto :=
  let d := newCreateAppointmentDto in
  mkCreateAppointmentDto
    (assign (doctorId body) (doctorId d))
    (assign (patientId body) (patientId d))
    (assign (appointmentDateTime body) (appointmentDateTime d))
    (assign (notes body) (notes d))
    (assign (status body) (status d)).

Section AppointmentCreate.

(** [new Date(text).getTime()], [None] standing for an invalid date. *)
Variable parseDate : string -> option Z.

(** [AppointmentService.create], on the fields the controller has checked
    to be present. *)
Definition AppointmentService_create (now doctorId patientId : Z)
  (appointmentDateTime : string) (notes status : option string)
  : Svc Appointment.t :=
  if (doctorId =? 0) || (doctorId <=? 0) then throw BadRequest
  else
    doctor <- DoctorRepository.findOne doctorId ;;
    match doctor with
    | None => throw NotFound
    | Some doctor =>
        if negb (Doctor.isActive doctor) then throw BadRequest
        else
          patient <- PatientRepository.findOne patientId ;;
          match patient with
          | None => throw NotFound
          | Some _ =>
              match parseDate appointmentDateTime with
              | None => throw BadRequest
              | Some appointmentDate =>
                  existingAppointment <-
                    AppointmentRepository.findOneBySlot doctorId appointmentDate
                      "scheduled" ;;
                  match existingAppointment with
                  | Some _ => throw BadRequest
                  | None =>
                      AppointmentRepository.insertRow now doctorId patientId
                        appointmentDate notes (JS.or status "scheduled")
                  end
              end
          end
    end.

(** [AppointmentController.create]: the pipe builds the DTO (a body without
    the required fields is refused by class-validator), the handler repeats
    the presence checks and calls the service; exceptions that already are
    HTTP exceptions pass through unchanged. *)
Definition AppointmentController_create (now : Z) (body : CreateAppointmentDto)
  : Svc Appointment.t :=
  let createAppointmentDto := plainToInstance body in
  match doctorId createAppointmentDto, patientId createAppointmentDto,
        appointmentDateTime createAppointmentDto with
  | Some doctorId, Some patientId, Some appointmentDateTime =>
      if doctorId =? 0 then throw BadRequest
      else if patientId =? 0 then throw BadRequest
      else if String.eqb appointmentDateTime "" then throw BadRequest
      else
        AppointmentService_create now doctorId patientId appointmentDateTime
          (notes createAppointmentDto) (status createAppointmentDto)
  | _, _, _ => throw BadRequest
  end.

End AppointmentCreate.

(** ** queue.service.ts: listing, calling the next patient, analytics *)

Definition QueueService_findAll : Svc (list Queue.t) :=
  QueueRepository.find whereAll.

Definition QueueService_findByStatus (status : string) : Svc (list Queue.t) :=
  QueueRepository.find (whereStatus status).

(** [generateAnnouncement(patient)], [patientName] being
    [patient.patient?.name || 'Unknown Patient']. *)
Definition QueueService_generateAnnouncement (patient : Queue.t) (patientName : string)
  : string :=
  let priorityPrefix :=
    if String.eqb (Queue.priority patient) "emergency" then "EMERGENCY: "
    else if String.eqb (Queue.priority patient) "urgent" then "URGENT: "
    else "" in
  priorityPrefix ++ "Queue number " ++ JS.toString (Queue.queueNumber patient) ++ ", "
  ++ patientName ++ ", please proceed to the consultation room".

Record CallNextResult : Type := mkCallNextResult {
  called_patient : option Queue.t;
  called_announcement : string
}.

(** [callNextPatient()]: [updateStatus] reloads the entry with its patient
    relation, which the announcement reads. *)
Definition QueueService_callNextPatient : Svc CallNextResult :=
  nextPatient <- QueueService.getNextPatient ;;
  match nextPatient with
  | None => ret (mkCallNextResult None "No patients waiting in queue")
  | Some nextPatient =>
      updatedPatient <- QueueService.updateStatus (Queue.id nextPatient) "with-doctor" ;;
      name <- QueueController.patientName updatedPatient ;;
      ret (mkCallNextResult (Some updatedPatient)
             (QueueService_generateAnnouncement updatedPatient name))
  end.

(** An entity together with its [patient] relation: [None] when the query
    did not load it (or the row points to no patient). *)
Record QueueEntity : Type := mkQueueEntity {
  entity_row : Queue.t;
  entity_patient : option Patient.t
}.

(** [findOne({ where: { id }, relations: ['patient'] })] *)
Definition QueueRepository_findOneWithPatient (id : Z) : Svc (option QueueEntity) :=
  fun db =>
    (Ok (option_map
           (fun q =>
              mkQueueEntity q
                (List.find (fun p => Patient.id p =? Queue.patientId q) (patients db)))
           (List.find (whereId id) (queue db))),
     db).

(** [addEmergencyPatient] with the relation of the returned entity kept: the
    entry promoted in place was loaded without relations, the new entry is
    read back with its patient. *)
Definition QueueService_addEmergencyPatient_entity (now patientId : Z)
  : Svc (option QueueEntity) :=
  patient <- PatientRepository.findOne patientId ;;
  match patient with
  | None => throw NotFound
  | Some _ =>
      existingQueue <- QueueRepository.findOne (wherePatientStatus patientId "waiting") ;;
      match existingQueue with
      | Some existingQueue =>
          saved <-
            QueueRepository.save
              (Queue.mk (Queue.id existingQueue) 0 (Queue.patientId existingQueue)
                        (Queue.status existingQueue) "emergency"
                        (Queue.createdAt existingQueue)) ;;
          ret (Some (mkQueueEntity saved None))
      | None =>
          savedEntry <- QueueRepository.insertRow now 0 patientId "waiting" "emergency" ;;
          QueueRepository_findOneWithPatient (Queue.id savedEntry)
      end
  end.

Record HourlyData : Type := mkHourlyData {
  hour : string;
  hour_patients : Z;
  hour_avgWaitTime : string
}.

Definition QueueService_getHourlyQueueData : list HourlyData :=
  [mkHourlyData "8AM" 8 "10m"; mkHourlyData "9AM" 12 "15m";
   mkHourlyData "10AM" 18 "25m"; mkHourlyData "11AM" 25 "35m";
   mkHourlyData "12PM" 15 "20m"; mkHourlyData "1PM" 8 "10m";
   mkHourlyData "2PM" 22 "30m"; mkHourlyData "3PM" 20 "25m";
   mkHourlyData "4PM" 16 "20m"; mkHourlyData "5PM" 12 "15m"].

(** One row of a distribution: the label ([priority] or [status]), the
    count, the colour and the rounded percentage. *)
Record Share : Type := mkShare {
  share_label : string;
  share_count : Z;
  share_color : string;
  share_percentage : Z
}.

Definition QueueService_getPriorityDistribution : Svc (list Share) :=
  normal <- QueueRepository.count (wherePriorityStatus "normal" "waiting") ;;
  urgent <- QueueRepository.count (wherePriorityStatus "urgent" "waiting") ;;
  emergency <- QueueRepository.count (wherePriorityStatus "emergency" "waiting") ;;
  let total := normal + urgent + emergency in
  ret [mkShare "Normal" normal "#10b981" (QueueService.percentage normal total);
       mkShare "Urgent" urgent "#f59e0b" (QueueService.percentage urgent total);
       mkShare "Emergency" emergency "#ef4444" (QueueService.percentage emergency total)].

Definition QueueService_getStatusTrends : Svc (list Share) :=
  waiting <- QueueRepository.count (whereStatus "waiting") ;;
  withDoctor <- QueueRepository.count (whereStatus "with_doctor") ;;
  completed <- QueueRepository.count (whereStatus "completed") ;;
  let total := waiting + withDoctor + completed in
  ret [mkShare "Waiting" waiting "#fbbf24" (QueueService.percentage waiting total);
       mkShare "With Doctor" withDoctor "#3b82f6" (QueueService.percentage withDoctor total);
       mkShare "Completed" completed "#10b981" (QueueService.percentage completed total)].

(** [identifyPeakHours]: the hours with more than 1.2 times the mean number
    of patients, the mean and the product being doubles (the literal is the
    double nearest to 1.2). *)
Definition QueueService_identifyPeakHours (hourlyData : list HourlyData) : list string :=
  let sum := fold_left (fun sum h => sum + hour_patients h) hourlyData 0 in
  let avgPatients :=
    PrimFloat.div (JS.toNumber sum) (JS.toNumber (Z.of_nat (List.length hourlyData))) in
  map hour
      (filter
         (fun h =>
            PrimFloat.ltb (PrimFloat.mul avgPatients 0x1.3333333333333p+0%float)
                          (JS.toNumber (hour_patients h)))
         hourlyData).

Definition QueueService_generateRecommendations (hourlyData : list HourlyData)
  (priorityData : list Share) : list string :=
  let peakHours := QueueService_identifyPeakHours hourlyData in
  let emergencyCount :=
    match List.find (fun p => String.eqb (share_label p) "Emergency") priorityData with
    | Some p => share_count p
    | None => 0
    end in
  let totalWaiting := fold_left (fun sum p => sum + share_count p) priorityData 0 in
  let staffing := "Consider adding more staff during peak hours: "
                  ++ String.concat ", " peakHours in
  List.app
    (if 0 <? Z.of_nat (List.length peakHours) then [staffing] else [])
    (List.app
       (if 3 <? emergencyCount
        then ["High emergency case volume - ensure emergency protocols are active"]
        else [])
       (if 20 <? totalWaiting
        then ["Queue is getting long - consider optimizing patient flow"]
        else [])).

Record QueueAnalytics : Type := mkQueueAnalytics {
  hourlyFlow : list HourlyData;
  priorityBreakdown : list Share;
  statusDistribution : list Share;
  peakHours : list string;
  recommendations : list string
}.

Definition QueueService_getQueueAnalytics : Svc QueueAnalytics :=
  let hourlyData := QueueService_getHourlyQueueData in
  priorityDistribution <- QueueService_getPriorityDistribution ;;
  statusTrends <- QueueService_getStatusTrends ;;
  ret (mkQueueAnalytics hourlyData priorityDistribution statusTrends
         (QueueService_identifyPeakHours hourlyData)
         (QueueService_generateRecommendations hourlyData priorityDistribution)).

(** ** queue.controller.ts: the remaining handlers *)

Definition QueueController_findAll (status : option string) : Svc (list Queue.t) :=
  catchAs InternalServerError
    (if JS.truthy status then QueueService_findByStatus (JS.or status "")
     else QueueService_findAll).

(** The largest whole number of minutes a waiting item has been queued,
    never below 0: the [forEach] loop of [calculateLongestWait]. *)
Definition maxWaitMinutes (now : Z) (waitingQueue : list QueueService.EnhancedEntry) : Z :=
  fold_left
    (fun maxWaitMinutes item =>
       let waitMinutes :=
         (now - Queue.createdAt (QueueService.entry item)) / (1000 * 60) in
       if maxWaitMinutes <? waitMinutes then waitMinutes else maxWaitMinutes)
    waitingQueue 0.

Definition QueueController_calculateLongestWait (now : Z)
  (queue : list QueueService.EnhancedEntry) : string :=
  match queue with
  | [] => "0m"
  | _ =>
      let waitingQueue :=
        filter (fun q => String.eqb (Queue.status (QueueService.entry q)) "waiting") queue in
      match waitingQueue with
      | [] => "0m"
      | _ =>
          let maxWaitMinutes := maxWaitMinutes now waitingQueue in
          if maxWaitMinutes <? 60 then JS.toString maxWaitMinutes ++ "m"
          else JS.toString (maxWaitMinutes / 60) ++ "h "
               ++ JS.toString (Z.rem maxWaitMinutes 60) ++ "m"
      end
  end.

Record QueueSummary : Type := mkQueueSummary {
  totalWaiting : Z;
  emergencyCases : Z;
  urgentCases : Z;
  longestWait : string;
  totalRecords : Z
}.

(** GET /queue/summary; [now] is the clock read by the service, [now'] the
    later reading of [calculateLongestWait]. *)
Definition QueueController_getQueueSummary (now now' : Z) : Svc QueueSummary :=
  catchAs InternalServerError
    (queueArray <- QueueService.getEnhancedQueue now ;;
     let count f := Z.of_nat (List.length (filter f queueArray)) in
     ret (mkQueueSummary
            (count (fun q => String.eqb (Queue.status (QueueService.entry q)) "waiting"))
            (count (fun q => String.eqb (Queue.priority (QueueService.entry q)) "emergency"))
            (count (fun q => String.eqb (Queue.priority (QueueService.entry q)) "urgent"))
            (QueueController_calculateLongestWait now' queueArray)
            (Z.of_nat (List.length queueArray)))).

Definition QueueController_generateAnnouncement (patient : Queue.t) (patientName : string)
  : string :=
  QueueService_generateAnnouncement patient patientName.

Definition QueueController_generateDetailedAnnouncement (patient : Queue.t)
  (patientName : string) : string :=
  let priorityPrefix :=
    if String.eqb (Queue.priority patient) "emergency" then "EMERGENCY: "
    else if String.eqb (Queue.priority patient) "urgent" then "URGENT: "
    else "" in
  let roomAssignment :=
    if String.eqb (Queue.priority patient) "emergency" then "emergency room"
    else "consultation room" in
  priorityPrefix ++ "Queue number " ++ JS.toString (Queue.queueNumber patient) ++ ", "
  ++ patientName ++ ", please proceed to the " ++ roomAssignment.

Record NextPatientResponse : Type := mkNextPatientResponse {
  next_message : string;
  next_nextPatient : option Queue.t;
  next_announcement : option string
}.

(** GET /queue/next *)
Definition QueueController_getNextPatient : Svc NextPatientResponse :=
  catchAs InternalServerError
    (nextPatient <- QueueService.getNextPatient ;;
     match nextPatient with
     | None => ret (mkNextPatientResponse "No patients waiting in queue" None None)
     | Some nextPatient =>
         name <- QueueController.patientName nextPatient ;;
         ret (mkNextPatientResponse "Next patient ready to be called" (Some nextPatient)
                (Some (QueueController_generateAnnouncement nextPatient name)))
     end).

Record CallNextResponse : Type := mkCallNextResponse {
  call_success : bool;
  call_message : string;
  call_announcement : option string;
  call_patient : option Queue.t
}.

(** POST /queue/call-next *)
Definition QueueController_callNextPatient : Svc CallNextResponse :=
  catchAs InternalServerError
    (result <- QueueService_callNextPatient ;;
     match called_patient result with
     | None => ret (mkCallNextResponse false "No patients available to call" None None)
     | Some patient =>
         name <- QueueController.patientName patient ;;
         ret (mkCallNextResponse true "Patient called successfully"
                (Some (QueueController_generateDetailedAnnouncement patient name))
                (Some patient))
     end).

Record EmergencyResponse : Type := mkEmergencyResponse {
  emergency_queueEntry : Queue.t;
  emergency_queueNumber : Z;
  emergency_announcement : string
}.

(** POST /queue/emergency *)
Definition QueueController_addEmergencyPatient (now : Z) (patientId : option Z)
  : Svc EmergencyResponse :=
  catchAs BadRequest
    (match patientId with
     | None => throw BadRequest
     | Some patientId =>
         if (patientId =? 0) || (patientId <=? 0) then throw BadRequest
         else
           result <- QueueService_addEmergencyPatient_entity now patientId ;;
           match result with
           | None => throw InternalServerError (* TypeError on result.queueNumber *)
           | Some result =>
               let queueNumber := Queue.queueNumber (entity_row result) in
               ret (mkEmergencyResponse (entity_row result) queueNumber
                      ("EMERGENCY: Queue number " ++ JS.toString queueNumber ++ ", "
                       ++ JS.or (option_map Patient.name (entity_patient result))
                                "Unknown Patient"
                       ++ ", please proceed to emergency consultation room immediately"))
           end
     end).

(** PUT /queue/:id/priority with body [{ priority }]. *)
Definition QueueController_updatePriority (id : Z) (priority : option string)
  : Svc Queue.t :=
  catchAs BadRequest
    (if negb (JS.truthy priority) then throw BadRequest
     else
       let priority := JS.or priority "" in
       if negb (JS.includes ["normal"; "urgent"; "emergency"] priority)
       then throw BadRequest
       else QueueService.updatePriority id priority).

(** DELETE /queue/:id *)
Definition QueueController_removeFromQueue (id : Z) : Svc Queue.t :=
  catchAs BadRequest (QueueService.removeFromQueue id).

(** ** appointment.service.ts: lookup, removal, status, listings, statistics *)

Definition whereAppointmentId (id : Z) (a : Appointment.t) : bool :=
  Appointment.id a =? id.

Fixpoint insertByTime (x : Appointment.t) (l : list Appointment.t) : list Appointment.t :=
  match l with
  | [] => [x]
  | y :: l' =>
      if Appointment.appointmentDateTime x <=? Appointment.appointmentDateTime y
      then x :: y :: l'
      else y :: insertByTime x l'
  end.

(** [order: { appointmentDateTime: 'ASC' }] as a stable sort. *)
Definition orderByTime (l : list Appointment.t) : list Appointment.t :=
  fold_right insertByTime [] l.

Definition AppointmentRepository_find (where_ : Appointment.t -> bool)
  : Svc (list Appointment.t) :=
  fun db => (Ok (orderByTime (filter where_ (appointments db))), db).

Definition AppointmentRepository_findOne (where_ : Appointment.t -> bool)
  : Svc (option Appointment.t) :=
  fun db => (Ok (List.find where_ (appointments db)), db).

Definition AppointmentRepository_count (where_ : Appointment.t -> bool) : Svc Z :=
  fun db => (Ok (Z.of_nat (List.length (filter where_ (appointments db)))), db).

Definition setAppointments (db : Db) (rows : list Appointment.t) : Db :=
  mkDb (patients db) (doctors db) (queue db) (queueSeq db) rows (appointmentSeq db).

(** [save(entity)] for a loaded appointment: UPDATE by primary key. *)
Definition AppointmentRepository_save (a : Appointment.t) : Svc Appointment.t :=
  fun db =>
    (Ok a,
     setAppointments db
       (map (fun r => if Appointment.id r =? Appointment.id a then a else r)
            (appointments db))).

(** [remove(entity)]: DELETE by primary key. *)
Definition AppointmentRepository_remove (a : Appointment.t) : Svc unit :=
  fun db =>
    (Ok tt,
     setAppointments db
       (filter (fun r => negb (Appointment.id r =? Appointment.id a)) (appointments db))).

Definition AppointmentService_findAll : Svc (list Appointment.t) :=
  AppointmentRepository_find (fun _ => true).

Definition AppointmentService_findOne (id : Z) : Svc Appointment.t :=
  appointment <- AppointmentRepository_findOne (whereAppointmentId id) ;;
  match appointment with
  | None => throw NotFound
  | Some appointment => ret appointment
  end.

Definition AppointmentService_remove (id : Z) : Svc unit :=
  appointment <- AppointmentRepository_findOne (whereAppointmentId id) ;;
  match appointment with
  | None => throw NotFound
  | Some appointment => AppointmentRepository_remove appointment
  end.

Definition AppointmentService_findByDoctor (doctorId : Z) : Svc (list Appointment.t) :=
  AppointmentRepository_find (fun a => Appointment.doctorId a =? doctorId).

Definition AppointmentService_findByPatient (patientId : Z) : Svc (list Appointment.t) :=
  AppointmentRepository_find (fun a => Appointment.patientId a =? patientId).

Definition AppointmentService_updateStatus (id : Z) (status : string)
  : Svc Appointment.t :=
  appointment <- AppointmentService_findOne id ;;
  AppointmentRepository_save
    (Appointment.mk (Appointment.id appointment) (Appointment.doctorId appointment)
                    (Appointment.patientId appointment)
                    (Appointment.appointmentDateTime appointment) status
                    (Appointment.notes appointment) (Appointment.createdAt appointment)).

Record AppointmentStats : Type := mkAppointmentStats {
  stats_total : Z;
  stats_scheduled : Z;
  stats_completed : Z;
  stats_cancelled : Z;
  completionRate : Z;
  cancellationRate : Z
}.

Definition whereAppointmentStatus (status : string) (a : Appointment.t) : bool :=
  String.eqb (Appointment.status a) status.

Definition AppointmentService_getAppointmentStats : Svc AppointmentStats :=
  total <- AppointmentRepository_count (fun _ => true) ;;
  scheduled <- AppointmentRepository_count (whereAppointmentStatus "scheduled") ;;
  completed <- AppointmentRepository_count (whereAppointmentStatus "completed") ;;
  cancelled <- AppointmentRepository_count (whereAppointmentStatus "cancelled") ;;
  ret (mkAppointmentStats total scheduled completed cancelled
         (QueueService.percentage completed total)
         (QueueService.percentage cancelled total)).

(** GET /appointments/:id: any failure is answered 404. *)
Definition AppointmentController_findOne (id : Z) : Svc Appointment.t :=
  catchAs NotFound (AppointmentService_findOne id).

(** DELETE /appointments/:id: any failure is answered 400. *)
Definition AppointmentController_remove (id : Z) : Svc unit :=
  catchAs BadRequest (AppointmentService_remove id).

(** ** Specification vocabulary *)

(** The table constraints the queue code relies on: primary keys are unique
    and were all handed out by the AUTO_INCREMENT counter. *)
Definition wf (db : Db) : Prop :=
  NoDup (map Queue.id (queue db))
  /\ Forall (fun r => Queue.id r < queueSeq db) (queue db).

(** Number of rows of the queue table selected by a [where] clause. *)
Definition countWhere (where_ : Queue.t -> bool) (db : Db) : Z :=
  Z.of_nat (List.length (filter where_ (queue db))).

(** Number of [waiting] entries of one patient. *)
Definition waitingCount (patientId : Z) (db : Db) : nat :=
  List.length (filter (wherePatientStatus patientId "waiting") (queue db)).

(** P1: at most one waiting entry per patient. *)
Definition singleWaiting (db : Db) : Prop :=
  forall patientId, (waitingCount patientId db <= 1)%nat.

(** The admission and removal requests of the front desk. *)
Inductive QueueOp : Type :=
| Admit (now patientId : Z) (priority notes : option string)
| AdmitEmergency (now patientId : Z)
| Remove (queueId : Z).

Definition step (op : QueueOp) (db : Db) : Db :=
  match op with
  | Admit now patientId priority notes =>
      snd (QueueService.addToQueue now patientId priority notes db)
  | AdmitEmergency now patientId =>
      snd (QueueService.addEmergencyPatient now patientId db)
  | Remove queueId => snd (QueueService.removeFromQueue queueId db)
  end.

Definition run (ops : list QueueOp) (db : Db) : Db :=
  fold_left (fun db op => step op db) ops db.

(** The status set as the specification spells it. *)
Definition specStatuses : list string :=
  ["waiting"; "with_doctor"; "completed"; "cancelled"].

(** The efficiency the specification describes:
    completed / (completed + waiting) as a percentage. *)
Definition specEfficiency (db : Db) : Z :=
  QueueService.percentage
    (countWhere (whereStatus "completed") db)
    (countWhere (whereStatus "completed") db + countWhere (whereStatus "waiting") db).

(** The renumbering the specification describes for a demotion to urgent:
    the other urgent, waiting entries, plus one. *)
Definition specUrgentNumber (queueId : Z) (db : Db) : Z :=
  countWhere
    (fun q => wherePriorityStatus "urgent" "waiting" q && negb (whereId queueId q)) db
  + 1.

(** Rank of a priority as the specification orders them. *)
Definition specRank (priority : string) : Z :=
  if String.eqb priority "emergency" then 2
  else if String.eqb priority "urgent" then 1
  else 0.

(** The priority addToQueue works with: the argument, or its default. *)
Definition defaultPriority (priority : option string) : string :=
  match priority with
  | Some p => p
  | None => "normal"
  end.

(** The entry as addEmergencyPatient rewrites it. *)
Definition promoted (e : Queue.t) : Queue.t :=
  Queue.mk (Queue.id e) 0 (Queue.patientId e) (Queue.status e) "emergency"
           (Queue.createdAt e).

(** The database with the queue table replaced, and with one row inserted. *)
Definition setQueue (db : Db) (rows : list Queue.t) : Db :=
  mkDb (patients db) (doctors db) rows (queueSeq db) (appointments db)
       (appointmentSeq db).

Definition insertedDb (db : Db) (row : Queue.t) : Db :=
  mkDb (patients db) (doctors db) (queue db ++ [row]) (queueSeq db + 1)
       (appointments db) (appointmentSeq db).

Definition Inv (db : Db) : Prop := wf db /\ singleWaiting db.

(** [listedBefore a b]: the ORDER BY clause lets [a] come before [b]. *)
Definition listedBefore (a b : Queue.t) : Prop := QueueRepository.precedes a b = true.

(** ** Sample databases *)

Definition alice : Patient.t := Patient.mk 1 "Alice".
Definition bob : Patient.t := Patient.mk 2 "Bob".

Definition emptyDb : Db := mkDb [alice; bob] [] [] 1 [] 1.

(** A normal walk-in (queue number 1) and an emergency case, both waiting. *)
Definition triageDb : Db :=
  mkDb [alice; bob] []
       [Queue.mk 1 1 1 "waiting" "normal" 1000;
        Queue.mk 2 0 2 "waiting" "emergency" 2000]
       3 [] 1.

(** A finished urgent consultation and a waiting emergency case. *)
Definition demotionDb : Db :=
  mkDb [alice; bob] []
       [Queue.mk 1 5 1 "completed" "urgent" 1000;
        Queue.mk 2 0 2 "waiting" "emergency" 2000]
       3 [] 1.

(** One completed and one cancelled visit. *)
Definition closedDb : Db :=
  mkDb [alice; bob] []
       [Queue.mk 1 1 1 "completed" "normal" 1000;
        Queue.mk 2 2 2 "cancelled" "normal" 2000]
       3 [] 1.

(** A single waiting patient. *)
Definition oneWaitingDb : Db :=
  mkDb [alice; bob] [] [Queue.mk 1 1 1 "waiting" "normal" 1000] 2 [] 1.

(** A morning at the front desk. *)
Definition frontDeskDay : list QueueOp :=
  [Admit 10 1 None None;
   Admit 20 1 (Some "urgent") (Some "second visit");
   AdmitEmergency 30 1;
   Admit 40 2 (Some "urgent") None;
   Remove 1;
   AdmitEmergency 50 1;
   AdmitEmergency 60 2].

(** A date parser for the example: one known instant. *)
Definition sampleParseDate (text : string) : option Z :=
  if String.eqb text "2024-05-01T10:00:00Z" then Some 1714557600000 else None.

Definition clinicDb : Db :=
  mkDb [alice; bob] [Doctor.mk 4 "Dr. Rao" true] [] 1 [] 1.

Definition bookingFor (patient : Z) : CreateAppointmentDto :=
  mkCreateAppointmentDto (Some 4) (Some patient) (Some "2024-05-01T10:00:00Z")
                         None None.

Ltac wf_concrete :=
  split;
  [ repeat constructor; simpl; intuition (try discriminate; try lia)
  | repeat constructor; simpl; lia ].

(** ** Vocabulary for the further properties *)

(** Number of waiting entries in the queue table. *)
Definition waitingTotal (db : Db) : nat :=
  List.length (filter (whereStatus "waiting") (queue db)).

(** The database after [n] calls of callNextPatient. *)
Fixpoint callNextTimes (n : nat) (db : Db) : Db :=
  match n with
  | O => db
  | S n' => callNextTimes n' (snd (QueueService_callNextPatient db))
  end.

(** An entry with its status, or its priority and queue number, replaced. *)
Definition withStatus (e : Queue.t) (status : string) : Queue.t :=
  Queue.mk (Queue.id e) (Queue.queueNumber e) (Queue.patientId e) status
           (Queue.priority e) (Queue.createdAt e).

Definition withPriority (e : Queue.t) (priority : string) (queueNumber : Z) : Queue.t :=
  Queue.mk (Queue.id e) queueNumber (Queue.patientId e) (Queue.status e) priority
           (Queue.createdAt e).

(** What updatePriority leaves alone in a row. *)
Definition identityOf (q : Queue.t) : Z * Z * string * Z :=
  (Queue.id q, Queue.patientId q, Queue.status q, Queue.createdAt q).

(** Whole minutes an enhanced entry has been queued at [now]. *)
Definition waitMinutes (now : Z) (item : QueueService.EnhancedEntry) : Z :=
  (now - Queue.createdAt (QueueService.entry item)) / (1000 * 60).

(** The appointment table's constraints: unique primary keys, all handed
    out by the counter. *)
Definition wfAppointments (db : Db) : Prop :=
  NoDup (map Appointment.id (appointments db))
  /\ Forall (fun a => Appointment.id a < appointmentSeq db) (appointments db).

Definition withAppointmentStatus (a : Appointment.t) (status : string) : Appointment.t :=
  Appointment.mk (Appointment.id a) (Appointment.doctorId a) (Appointment.patientId a)
                 (Appointment.appointmentDateTime a) status (Appointment.notes a)
                 (Appointment.createdAt a).

(** Two open visits of the same patient: one with the doctor, one waiting. *)
Definition returningDb : Db :=
  mkDb [alice; bob] []
       [Queue.mk 1 1 1 "with_doctor" "normal" 1000;
        Queue.mk 2 2 1 "waiting" "urgent" 2000;
        Queue.mk 3 3 2 "waiting" "normal" 3000]
       4 [] 1.

(** Only an emergency case is waiting. *)
Definition emergencyOnlyDb : Db :=
  mkDb [alice; bob] []
       [Queue.mk 1 1 1 "completed" "urgent" 1000;
        Queue.mk 2 0 2 "waiting" "emergency" 2000]
       3 [] 1.

(** [earlierOrSame a b]: the ascending order of the appointment listings. *)
Definition earlierOrSame (a b : Appointment.t) : Prop :=
  Appointment.appointmentDateTime a <= Appointment.appointmentDateTime b.

(** The sample booking with the status scheduled named in the request. *)
Definition scheduledBookingFor (patient : Z) : CreateAppointmentDto :=
  mkCreateAppointmentDto (Some 4) (Some patient) (Some "2024-05-01T10:00:00Z")
                         None (Some "scheduled").

(** A booked and a scheduled appointment of doctor 4. *)
Definition bookedDb : Db :=
  mkDb [alice; bob] [Doctor.mk 4 "Dr. Rao" true] [] 1
       [Appointment.mk 1 4 1 1714557600000 "booked" None 100;
        Appointment.mk 2 4 2 1714561200000 "scheduled" None 200]
       3.

(** ** Basic facts about the repository primitives *)

Lemma find_app_first {A : Type} (f : A -> bool) (l1 l2 : list A) :
  List.find f (l1 ++ l2)
  = match List.find f l1 with
    | Some x => Some x
    | None => List.find f l2
    end.
Proof.
  induction l1 as [|a l1 IH]; simpl; [reflexivity|].
  destruct (f a); [reflexivity | exact IH].
Qed.

Lemma find_fresh_id (l : list Queue.t) (n : Z) :
  Forall (fun r => Queue.id r < n) l -> List.find (whereId n) l = None.
Proof.
  induction 1 as [|r l Hr _ IH]; simpl; [reflexivity|].
  unfold whereId at 1.
  destruct (Z.eqb_spec (Queue.id r) n); [lia | exact IH].
Qed.

Lemma filter_whereAll (l : list Queue.t) : filter whereAll l = l.
Proof.
  induction l as [|a l IH]; simpl; [reflexivity | now rewrite IH].
Qed.

Lemma find_whereId_id (id : Z) (l : list Queue.t) (e : Queue.t) :
  List.find (whereId id) l = Some e -> Queue.id e = id.
Proof.
  intros H. apply find_some in H. destruct H as [_ H].
  unfold whereId in H. now apply Z.eqb_eq.
Qed.

(** After an UPDATE by primary key, looking the key up yields the new row. *)
Lemma find_whereId_replace (id : Z) (l : list Queue.t) (e e' : Queue.t) :
  List.find (whereId id) l = Some e ->
  Queue.id e' = id ->
  List.find (whereId id) (map (QueueRepository.replaceRow e') l) = Some e'.
Proof.
  intros Hfind He'. induction l as [|r l IH]; simpl in *; [discriminate|].
  unfold QueueRepository.replaceRow at 1 2.
  unfold whereId at 1 in Hfind. rewrite He'.
  destruct (Z.eqb_spec (Queue.id r) id) as [Heq|Hne].
  - unfold whereId. rewrite He', Z.eqb_refl. reflexivity.
  - unfold whereId at 1. destruct (Z.eqb_spec (Queue.id r) id); [contradiction|].
    apply IH, Hfind.
Qed.

(** ** C10: the notes argument of addToQueue *)

(** C10. For every call of addToQueue, service or controller, the result and
    the database afterwards are the same whatever the optional notes are. *)
Theorem addToQueue_ignores_notes :
  forall (now patientId : Z) (priority notes1 notes2 : option string) (db : Db),
    QueueService.addToQueue now patientId priority notes1 db
    = QueueService.addToQueue now patientId priority notes2 db
    /\ QueueController.addToQueue now
         (QueueController.mkAddToQueueDto (Some patientId) priority notes1) db
       = QueueController.addToQueue now
           (QueueController.mkAddToQueueDto (Some patientId) priority notes2) db.
Proof.
  intros. split; reflexivity.
Qed.

(** ** C6: the entry created by addToQueue *)

(** C6. On a well-formed table, addToQueue succeeds exactly when the patient
    exists and has no waiting entry; the entry it then creates and returns is
    appended to the table with status waiting, the requested priority, and
    queue number 0 for emergency and (number of rows of any status) + 1
    otherwise. *)
Theorem addToQueue_creates_waiting_entry :
  forall (now patientId : Z) (priority notes : option string) (db : Db),
    wf db ->
    ((exists p, List.find (fun p => Patient.id p =? patientId) (patients db) = Some p)
     /\ List.find (wherePatientStatus patientId "waiting") (queue db) = None
     <-> exists r db', QueueService.addToQueue now patientId priority notes db = (Ok r, db'))
    /\ (forall r db',
          QueueService.addToQueue now patientId priority notes db = (Ok r, db') ->
          exists e,
            r = Some e
            /\ queue db' = (queue db ++ [e])%list
            /\ Queue.status e = "waiting"
            /\ Queue.patientId e = patientId
            /\ Queue.priority e = defaultPriority priority
            /\ Queue.queueNumber e
               = if String.eqb (defaultPriority priority) "emergency" then 0
                 else Z.of_nat (List.length (queue db)) + 1).
Proof.
  intros now patientId priority notes db [_ Hfresh].
  unfold QueueService.addToQueue, bind, PatientRepository.findOne,
    QueueRepository.findOne, throw.
  fold (defaultPriority priority).
  destruct (List.find (fun p => Patient.id p =? patientId) (patients db)) as [pt|] eqn:Hpt.
  2:{ split.
      - split; [intros [[p Hp] _]; discriminate | intros (r & db' & H); discriminate].
      - intros r db' H; discriminate. }
  destruct (List.find (wherePatientStatus patientId "waiting") (queue db)) as [w|] eqn:Hw.
  { split.
    - split; [intros [_ H]; discriminate | intros (r & db' & H); discriminate].
    - intros r db' H; discriminate. }
  assert (Hlook : forall row,
             Queue.id row = queueSeq db ->
             List.find (whereId (queueSeq db)) (queue db ++ [row]) = Some row).
  { intros row Hid. rewrite find_app_first, (find_fresh_id _ _ Hfresh). simpl.
    unfold whereId. rewrite Hid, Z.eqb_refl. reflexivity. }
  destruct (String.eqb (defaultPriority priority) "emergency") eqn:Hem;
    cbn [ret QueueRepository.count QueueRepository.insertRow Queue.id queue];
    rewrite ?filter_whereAll, Hlook by reflexivity.
  - split.
    + split; [intros _; eauto | intros _; split; [eauto | reflexivity]].
    + intros r db' H. inversion H; subst; clear H.
      eexists; repeat split; reflexivity.
  - split.
    + split; [intros _; eauto | intros _; split; [eauto | reflexivity]].
    + intros r db' H. inversion H; subst; clear H.
      eexists; repeat split; reflexivity.
Qed.

Lemma addToQueue_creates_waiting_entry_witness :
  wf oneWaitingDb
  /\ exists e db',
       QueueService.addToQueue 77 2 None (Some "fever") oneWaitingDb = (Ok (Some e), db')
       /\ Queue.queueNumber e = 2
       /\ Queue.status e = "waiting".
Proof.
  assert (Hwf : wf oneWaitingDb) by wf_concrete.
  split; [exact Hwf|].
  destruct (addToQueue_creates_waiting_entry 77 2 None (Some "fever") oneWaitingDb Hwf)
    as [Hiff Hprops].
  destruct (proj1 Hiff) as (r & db' & Hrun).
  { split; [eexists; reflexivity | reflexivity]. }
  destruct (Hprops r db' Hrun) as (e & -> & _ & Hst & _ & _ & Hqn).
  exists e, db'. repeat split; assumption.
Defined.

(** ** C3: the status values updateStatus takes *)

(** C3, as stated, fails: with_doctor belongs to the set of the claim, yet
    updateStatus refuses it with BadRequest on an existing entry, and
    with-doctor, which is outside that set, is taken. *)
Lemma updateStatus_underscore_refused :
  In "with_doctor" specStatuses
  /\ QueueService.updateStatus 1 "with_doctor" oneWaitingDb = (Throw BadRequest, oneWaitingDb)
  /\ ~ In "with-doctor" specStatuses
  /\ fst (QueueService.updateStatus 1 "with-doctor" oneWaitingDb)
     = Ok (Queue.mk 1 1 1 "with_doctor" "normal" 1000).
Proof.
  split; [simpl; tauto|].
  split; [reflexivity|].
  split; [|reflexivity].
  simpl. intros [H|[H|[H|[H|[]]]]]; discriminate.
Qed.

(** C3, amended. A target status outside waiting, with-doctor, completed,
    cancelled makes updateStatus (service and controller) fail with BadRequest
    and leaves the database as it was.  A target inside that set is never
    refused as a bad request by the service: on a missing entry it is
    NotFound, on an existing one the entry is saved with the mapped status
    (with-doctor is stored as with_doctor). *)
Theorem updateStatus_status_closure :
  forall (queueId : Z) (status : string) (db : Db),
    if JS.includes ["waiting"; "with-doctor"; "completed"; "cancelled"] status
    then
      match List.find (whereId queueId) (queue db) with
      | None => QueueService.updateStatus queueId status db = (Throw NotFound, db)
      | Some e =>
          exists e' db',
            QueueService.updateStatus queueId status db = (Ok e', db')
            /\ List.find (whereId queueId) (queue db') = Some e'
            /\ Queue.status e' = (if String.eqb status "with-doctor" then "with_doctor"
                                  else status)
            /\ In (Queue.status e') specStatuses
      end
    else
      QueueService.updateStatus queueId status db = (Throw BadRequest, db)
      /\ QueueController.updateStatus queueId (Some status) db = (Throw BadRequest, db).
Proof.
  intros queueId status db.
  destruct (JS.includes _ status) eqn:Hinc.
  - unfold QueueService.updateStatus, QueueService.validStatuses.
    rewrite Hinc. cbn [negb]. unfold bind, QueueRepository.findOne.
    destruct (List.find (whereId queueId) (queue db)) as [e|] eqn:Hfind; [|reflexivity].
    eexists; eexists. split; [reflexivity|].
    split.
    { cbn [queue]. apply (find_whereId_replace queueId _ e); [exact Hfind|].
      cbn [Queue.id]. exact (find_whereId_id _ _ _ Hfind). }
    cbn [Queue.status].
    unfold JS.includes in Hinc. simpl in Hinc.
    unfold QueueService.statusMapping.
    destruct (String.eqb_spec status "waiting") as [->|_]; [simpl; tauto|].
    destruct (String.eqb_spec status "with-doctor") as [->|_]; [simpl; tauto|].
    destruct (String.eqb_spec status "completed") as [->|_]; [simpl; tauto|].
    destruct (String.eqb_spec status "cancelled") as [->|_]; [simpl; tauto|].
    discriminate.
  - split.
    + unfold QueueService.updateStatus, QueueService.validStatuses.
      rewrite Hinc. reflexivity.
    + unfold QueueController.updateStatus, catchAs.
      destruct (JS.truthy (Some status)) eqn:Ht; cbn [negb]; [|reflexivity].
      assert (Hs : JS.or (Some status) "" = status).
      { destruct status; reflexivity. }
      rewrite Hs, Hinc. reflexivity.
Qed.

(** ** C7: renumbering on a priority change *)

(** C7, as stated, fails: entry 2 sits at queue number 0 and the only other
    urgent entry is completed, so the claim asks for queue number 0 + 1, but
    updatePriority counts the completed urgent entry as well and stores 2. *)
Lemma updatePriority_counts_all_urgent :
  List.find (whereId 2) (queue demotionDb) = Some (Queue.mk 2 0 2 "waiting" "emergency" 2000)
  /\ fst (QueueService.updatePriority 2 "urgent" demotionDb)
     = Ok (Queue.mk 2 2 2 "waiting" "urgent" 2000)
  /\ specUrgentNumber 2 demotionDb = 1.
Proof.
  repeat split; reflexivity.
Qed.

(** C7, amended. When the entry exists and its queue number is 0,
    updatePriority to urgent stores it with priority urgent and queue number
    (number of rows whose stored priority is urgent, whatever their status,
    counted before the save) + 1; updatePriority to emergency stores any
    existing entry with priority emergency and queue number 0. *)
Theorem updatePriority_renumbers :
  forall (queueId : Z) (db : Db) (e : Queue.t),
    List.find (whereId queueId) (queue db) = Some e ->
    (Queue.queueNumber e = 0 ->
     exists e' db',
       QueueService.updatePriority queueId "urgent" db = (Ok e', db')
       /\ List.find (whereId queueId) (queue db') = Some e'
       /\ Queue.priority e' = "urgent"
       /\ Queue.queueNumber e' = countWhere (wherePriority "urgent") db + 1)
    /\ (exists e' db',
          QueueService.updatePriority queueId "emergency" db = (Ok e', db')
          /\ List.find (whereId queueId) (queue db') = Some e'
          /\ Queue.priority e' = "emergency"
          /\ Queue.queueNumber e' = 0).
Proof.
  intros queueId db e Hfind.
  pose proof (find_whereId_id _ _ _ Hfind) as Hid.
  split.
  - intros Hzero.
    unfold QueueService.updatePriority, bind, QueueRepository.findOne.
    cbn [JS.includes QueueService.validPriorities existsb String.eqb Ascii.eqb
         Bool.eqb orb negb].
    rewrite Hfind. cbn [String.eqb Ascii.eqb Bool.eqb andb].
    rewrite Hzero. cbn [Z.eqb QueueRepository.count ret QueueRepository.save].
    eexists; eexists. split; [reflexivity|].
    split; [|split; reflexivity].
    cbn [queue]. apply (find_whereId_replace queueId _ e); [exact Hfind | exact Hid].
  - unfold QueueService.updatePriority, bind, QueueRepository.findOne.
    cbn [JS.includes QueueService.validPriorities existsb String.eqb Ascii.eqb
         Bool.eqb orb negb].
    rewrite Hfind. cbn [String.eqb Ascii.eqb Bool.eqb ret QueueRepository.save].
    eexists; eexists. split; [reflexivity|].
    split; [|split; reflexivity].
    cbn [queue]. apply (find_whereId_replace queueId _ e); [exact Hfind | exact Hid].
Qed.

Lemma updatePriority_renumbers_witness :
  List.find (whereId 2) (queue demotionDb) = Some (Queue.mk 2 0 2 "waiting" "emergency" 2000)
  /\ exists e' db',
       QueueService.updatePriority 2 "urgent" demotionDb = (Ok e', db')
       /\ Queue.queueNumber e' = 2.
Proof.
  split; [reflexivity|].
  destruct (updatePriority_renumbers 2 demotionDb
              (Queue.mk 2 0 2 "waiting" "emergency" 2000) eq_refl) as [Hurgent _].
  destruct (Hurgent eq_refl) as (e' & db' & Hrun & _ & _ & Hn).
  exists e', db'. split; [exact Hrun | exact Hn].
Defined.

(** ** C9: the efficiency figure *)

(** C9, as stated, fails: with one completed and one cancelled visit the
    claim gives 1 / (1 + 0), that is 100 percent, while getQueueStats
    divides by the two rows of the table and reports 50. *)
Lemma efficiency_divides_by_total :
  fst (QueueService.getQueueStats closedDb)
  = Ok (QueueService.mkStats 2 0 0 1 0 0 "0m" 50)
  /\ specEfficiency closedDb = 100.
Proof.
  split; vm_compute; reflexivity.
Qed.

(** The percentage is computed on doubles: 29 completed out of 200 is
    14.499999999999998 before rounding. *)
Example percentage_samples :
  QueueService.percentage 0 0 = 0
  /\ QueueService.percentage 3 4 = 75
  /\ QueueService.percentage 1 3 = 33
  /\ QueueService.percentage 2 3 = 67
  /\ QueueService.percentage 1 200 = 1
  /\ QueueService.percentage 29 200 = 14
  /\ QueueService.percentage 7 7 = 100.
Proof.
  repeat split; vm_compute; reflexivity.
Qed.

(** C9, amended. getQueueStats changes nothing and reports as efficiency
    the rounded percentage of completed entries among all rows of the queue
    table, whatever their status (the divisor is at least 1). *)
Theorem getQueueStats_efficiency :
  forall db : Db,
    exists st,
      QueueService.getQueueStats db = (Ok st, db)
      /\ QueueService.total st = Z.of_nat (List.length (queue db))
      /\ QueueService.completed st = countWhere (whereStatus "completed") db
      /\ QueueService.waiting st = countWhere (whereStatus "waiting") db
      /\ QueueService.efficiency st
         = QueueService.percentage (countWhere (whereStatus "completed") db)
                                   (Z.of_nat (List.length (queue db))).
Proof.
  intros db. eexists. split.
  - unfold QueueService.getQueueStats, bind, QueueRepository.count, ret.
    rewrite filter_whereAll. reflexivity.
  - repeat split; reflexivity.
Qed.

(** ** C8: the enhanced queue *)

Lemma enhance_entries (now index0 : Z) (l : list Queue.t) :
  map QueueService.entry (QueueService.enhance now index0 l) = l.
Proof.
  revert index0. induction l as [|e l IH]; intros index0; simpl;
    [reflexivity | now rewrite IH].
Qed.

Lemma enhance_nth (now : Z) (l : list Queue.t) :
  forall (index0 : Z) (i : nat) (item : QueueService.EnhancedEntry),
    nth_error (QueueService.enhance now index0 l) i = Some item ->
    nth_error l i = Some (QueueService.entry item)
    /\ QueueService.position item = index0 + Z.of_nat i + 1
    /\ QueueService.estimatedWaitTime item
       = QueueService.calculateWaitTime (index0 + Z.of_nat i).
Proof.
  induction l as [|e l IH]; intros index0 i item H.
  - destruct i; discriminate.
  - destruct i as [|i]; simpl in H.
    + inversion H; subst; clear H. cbn. rewrite Z.add_0_r. repeat split.
    + destruct (IH _ _ _ H) as (Hn & Hp & Hw).
      cbn [nth_error]. split; [exact Hn|].
      rewrite Hp, Hw. split; [lia | f_equal; lia].
Qed.

(** C8, as stated, fails: the only waiting entry has position 1, the claim
    expects the rendering of 1 x 15 minutes, the view says 0 minutes. *)
Lemma enhanced_first_waits_zero :
  exists item,
    fst (QueueService.getEnhancedQueue 5000 oneWaitingDb) = Ok [item]
    /\ QueueService.position item = 1
    /\ QueueService.estimatedWaitTime item = "0m"
    /\ QueueService.calculateWaitTime (QueueService.position item) = "15m".
Proof.
  eexists. split; [reflexivity|]. repeat split; reflexivity.
Qed.

(** C8, amended. The enhanced queue lists the waiting entries in the order
    of the query (priority text descending, then queue number ascending); the
    entry at 1-based position p reports as estimated wait the rendering of
    (p - 1) x 15 minutes, the time for the entries ahead of it; the database
    is unchanged. *)
Theorem getEnhancedQueue_wait_time :
  forall (now : Z) (db : Db),
    exists view,
      QueueService.getEnhancedQueue now db = (Ok view, db)
      /\ map QueueService.entry view
         = QueueRepository.orderBy (filter (whereStatus "waiting") (queue db))
      /\ forall (i : nat) (item : QueueService.EnhancedEntry),
           nth_error view i = Some item ->
           QueueService.position item = Z.of_nat i + 1
           /\ QueueService.estimatedWaitTime item
              = QueueService.calculateWaitTime (QueueService.position item - 1).
Proof.
  intros now db. eexists. split; [reflexivity|]. split.
  - apply enhance_entries.
  - intros i item H. destruct (enhance_nth _ _ _ _ _ H) as (_ & Hp & Hw).
    rewrite Hp, Hw. split; [lia | f_equal; lia].
Qed.

(** What [calculateWaitTime] renders: whole hours when there are any, then
    the remaining minutes of fifteen minutes per place. *)
Lemma calculateWaitTime_minutes (k : Z) :
  0 <= k ->
  QueueService.calculateWaitTime k
  = if 4 <=? k
    then JS.toString (k * 15 / 60) ++ "h " ++ JS.toString ((k * 15) mod 60) ++ "m"
    else JS.toString (k * 15) ++ "m".
Proof.
  intros Hk. unfold QueueService.calculateWaitTime.
  rewrite Z.rem_mod_nonneg by lia.
  destruct (Z.leb_spec 4 k) as [H4|H4].
  - assert (0 < k * 15 / 60) by (apply Z.div_str_pos; lia).
    destruct (Z.ltb_spec 0 (k * 15 / 60)); [reflexivity | lia].
  - assert (k * 15 / 60 = 0) as Hz by (apply Z.div_small; lia).
    rewrite Hz. cbn [Z.ltb Z.compare].
    rewrite Z.mod_small by lia. reflexivity.
Qed.

(** ** The order of the queue queries *)

Lemma ascii_compare_lt_trans (a b c : ascii) :
  Ascii.compare a b = Lt -> Ascii.compare b c = Lt -> Ascii.compare a c = Lt.
Proof.
  unfold Ascii.compare. rewrite !N.compare_lt_iff. lia.
Qed.

Lemma ascii_compare_refl (c : ascii) : Ascii.compare c c = Eq.
Proof.
  unfold Ascii.compare. apply N.compare_refl.
Qed.

Lemma string_compare_refl (s : string) : String.compare s s = Eq.
Proof.
  induction s as [|c s IH]; simpl; [reflexivity|].
  now rewrite ascii_compare_refl.
Qed.

Lemma string_compare_lt_trans :
  forall s1 s2 s3 : string,
    String.compare s1 s2 = Lt -> String.compare s2 s3 = Lt -> String.compare s1 s3 = Lt.
Proof.
  induction s1 as [|a s1 IH]; intros [|b s2] [|c s3]; simpl; try congruence.
  destruct (Ascii.compare a b) eqn:Hab; try discriminate;
    destruct (Ascii.compare b c) eqn:Hbc; try discriminate; intros H12 H23.
  - apply Ascii.compare_eq_iff in Hab, Hbc. subst.
    rewrite ascii_compare_refl.
    now apply (IH s2).
  - apply Ascii.compare_eq_iff in Hab. subst. now rewrite Hbc.
  - apply Ascii.compare_eq_iff in Hbc. subst. now rewrite Hab.
  - now rewrite (ascii_compare_lt_trans _ _ _ Hab Hbc).
Qed.

Lemma string_compare_gt_lt (s1 s2 : string) :
  String.compare s1 s2 = Gt <-> String.compare s2 s1 = Lt.
Proof.
  rewrite (String.compare_antisym s1 s2).
  destruct (String.compare s2 s1); simpl; split; congruence.
Qed.

Lemma precedes_total (a b : Queue.t) :
  QueueRepository.precedes a b = false -> QueueRepository.precedes b a = true.
Proof.
  unfold QueueRepository.precedes.
  rewrite (String.compare_antisym (Queue.priority a) (Queue.priority b)).
  destruct (String.compare (Queue.priority b) (Queue.priority a)); simpl;
    try congruence.
  intros H. apply Z.leb_gt in H. apply Z.leb_le. lia.
Qed.

Lemma precedes_trans (a b c : Queue.t) :
  listedBefore a b -> listedBefore b c -> listedBefore a c.
Proof.
  unfold listedBefore, QueueRepository.precedes.
  destruct (String.compare (Queue.priority a) (Queue.priority b)) eqn:Hab;
    try discriminate;
    destruct (String.compare (Queue.priority b) (Queue.priority c)) eqn:Hbc;
    try discriminate; intros H1 H2.
  - apply String.compare_eq_iff in Hab, Hbc. rewrite Hab, Hbc.
    rewrite string_compare_refl.
    apply Z.leb_le. apply Z.leb_le in H1, H2. lia.
  - apply String.compare_eq_iff in Hab. now rewrite Hab, Hbc.
  - apply String.compare_eq_iff in Hbc. now rewrite <- Hbc, Hab.
  - apply string_compare_gt_lt in Hab, Hbc.
    pose proof (string_compare_lt_trans _ _ _ Hbc Hab) as Hca.
    apply string_compare_gt_lt in Hca. now rewrite Hca.
Qed.

Lemma insert_perm (x : Queue.t) (l : list Queue.t) :
  Permutation (QueueRepository.insert x l) (x :: l).
Proof.
  induction l as [|y l IH]; simpl; [reflexivity|].
  destruct (QueueRepository.precedes x y); [reflexivity|].
  rewrite IH. apply perm_swap.
Qed.

Lemma orderBy_perm (l : list Queue.t) : Permutation (QueueRepository.orderBy l) l.
Proof.
  induction l as [|x l IH]; simpl; [reflexivity|].
  unfold QueueRepository.orderBy in *. simpl.
  rewrite insert_perm. now constructor.
Qed.

Lemma insert_sorted (x : Queue.t) (l : list Queue.t) :
  StronglySorted listedBefore l -> StronglySorted listedBefore (QueueRepository.insert x l).
Proof.
  induction 1 as [|y l Hl IH Hy]; simpl.
  - repeat constructor.
  - destruct (QueueRepository.precedes x y) eqn:Hxy.
    + constructor; [now constructor|].
      constructor; [exact Hxy|].
      eapply Forall_impl; [|exact Hy]. intros z Hz.
      now apply (precedes_trans x y z).
    + constructor; [exact IH|].
      apply (Permutation_Forall (Permutation_sym (insert_perm x l))).
      constructor; [now apply precedes_total | exact Hy].
Qed.

Lemma orderBy_sorted (l : list Queue.t) :
  StronglySorted listedBefore (QueueRepository.orderBy l).
Proof.
  induction l as [|x l IH]; [constructor|].
  apply insert_sorted, IH.
Qed.

(** The selection of the query holds exactly the waiting rows. *)
Lemma waiting_selection (db : Db) (e : Queue.t) :
  In e (QueueRepository.orderBy (filter (whereStatus "waiting") (queue db)))
  <-> In e (queue db) /\ Queue.status e = "waiting".
Proof.
  split.
  - intros H. apply (Permutation_in _ (orderBy_perm _)) in H.
    apply filter_In in H. destruct H as [Hin Hs]. split; [exact Hin|].
    now apply String.eqb_eq.
  - intros [Hin Hs]. apply (Permutation_in _ (Permutation_sym (orderBy_perm _))).
    apply filter_In. split; [exact Hin|]. now apply String.eqb_eq.
Qed.

(** getNextPatient yields null exactly when no row is waiting, and otherwise
    a waiting row that the order lists no later than any other waiting row. *)
Lemma getNextPatient_first (db : Db) :
  match QueueService.getNextPatient db with
  | (Ok None, db') =>
      db' = db /\ forall e, In e (queue db) -> Queue.status e <> "waiting"
  | (Ok (Some a), db') =>
      db' = db /\ In a (queue db) /\ Queue.status a = "waiting"
      /\ forall b, In b (queue db) -> Queue.status b = "waiting" -> listedBefore a b
  | (Throw _, _) => False
  end.
Proof.
  unfold QueueService.getNextPatient, QueueRepository.findOneOrdered.
  pose proof (waiting_selection db) as Hsel.
  pose proof (orderBy_sorted (filter (whereStatus "waiting") (queue db))) as Hsorted.
  destruct (QueueRepository.orderBy _) as [|a l]; simpl.
  - split; [reflexivity|]. intros e Hin Hs. now apply (proj2 (Hsel e)).
  - split; [reflexivity|].
    destruct (proj1 (Hsel a) (or_introl eq_refl)) as [Hin Hs].
    split; [exact Hin|]. split; [exact Hs|].
    intros b Hb Hsb. destruct (proj2 (Hsel b) (conj Hb Hsb)) as [<-|Hbl].
    + unfold listedBefore, QueueRepository.precedes.
      rewrite string_compare_refl.
      apply Z.leb_refl.
    + inversion Hsorted as [|? ? _ Hall]; subst.
      rewrite Forall_forall in Hall. now apply Hall.
Qed.

(** What being listed before means on the three priorities: the texts
    compare as urgent > normal > emergency, and equal priorities fall back on
    the queue number. *)
Lemma listedBefore_priorities (a b : Queue.t) :
  listedBefore a b ->
  (Queue.priority a = Queue.priority b -> Queue.queueNumber a <= Queue.queueNumber b)
  /\ (Queue.priority a = "emergency" ->
      Queue.priority b = "urgent" \/ Queue.priority b = "normal" -> False)
  /\ (Queue.priority a = "normal" -> Queue.priority b = "urgent" -> False).
Proof.
  unfold listedBefore, QueueRepository.precedes. intros H. repeat split.
  - intros Heq. rewrite Heq in H.
    rewrite string_compare_refl in H. now apply Z.leb_le.
  - intros Ha [Hb|Hb]; rewrite Ha, Hb in H; discriminate.
  - intros Ha Hb. rewrite Ha, Hb in H. discriminate.
Qed.

(** ** C1: who is called next *)

(** C1 on the code: a waiting emergency entry and a waiting normal entry.
    The emergency entry ranks higher, yet getNextPatient selects the normal
    one and the enhanced queue lists the emergency entry behind it, because
    the query orders the priority column as text. *)
Theorem getNextPatient_emergency_behind_normal :
  specRank "normal" < specRank "emergency"
  /\ fst (QueueService.getNextPatient triageDb)
     = Ok (Some (Queue.mk 1 1 1 "waiting" "normal" 1000))
  /\ map (fun item => (QueueService.position item,
                       Queue.priority (QueueService.entry item)))
         (match fst (QueueService.getEnhancedQueue 5000 triageDb) with
          | Ok view => view
          | Throw _ => []
          end)
     = [(1, "normal"); (2, "emergency")].
Proof.
  repeat split; reflexivity.
Qed.

(** ** Facts about UPDATE, DELETE and INSERT on the queue table *)

Lemma replaceRow_id (e r : Queue.t) :
  Queue.id (QueueRepository.replaceRow e r) = Queue.id r.
Proof.
  unfold QueueRepository.replaceRow.
  destruct (Z.eqb_spec (Queue.id r) (Queue.id e)); congruence.
Qed.

Lemma replaceRow_ids (e : Queue.t) (l : list Queue.t) :
  map Queue.id (map (QueueRepository.replaceRow e) l) = map Queue.id l.
Proof.
  rewrite map_map. apply map_ext. intros r. apply replaceRow_id.
Qed.

Lemma replaceRow_idempotent (e r : Queue.t) :
  QueueRepository.replaceRow e (QueueRepository.replaceRow e r)
  = QueueRepository.replaceRow e r.
Proof.
  unfold QueueRepository.replaceRow.
  destruct (Z.eqb_spec (Queue.id r) (Queue.id e)) as [Heq|Hne].
  - now rewrite Z.eqb_refl.
  - destruct (Z.eqb_spec (Queue.id r) (Queue.id e)); [contradiction | reflexivity].
Qed.

Lemma replaceRow_other (e : Queue.t) (l : list Queue.t) :
  (forall r, In r l -> Queue.id r <> Queue.id e) ->
  map (QueueRepository.replaceRow e) l = l.
Proof.
  induction l as [|r l IH]; intros H; simpl; [reflexivity|].
  rewrite IH by (intros r' Hr'; apply H; now right).
  unfold QueueRepository.replaceRow.
  destruct (Z.eqb_spec (Queue.id r) (Queue.id e)) as [Heq|Hne]; [|reflexivity].
  exfalso. apply (H r); [now left | exact Heq].
Qed.

(** With unique primary keys, a row is the only one carrying its id. *)
Lemma nodup_id_unique (l : list Queue.t) (e r : Queue.t) :
  NoDup (map Queue.id l) -> In e l -> In r l -> Queue.id r = Queue.id e -> r = e.
Proof.
  induction l as [|x l IH]; intros Hnd He Hr Hid; [contradiction|].
  simpl in Hnd. inversion Hnd as [|? ? Hnotin Hnd']; subst.
  destruct He as [->|He], Hr as [->|Hr].
  - reflexivity.
  - exfalso. apply Hnotin. rewrite <- Hid. now apply in_map.
  - exfalso. apply Hnotin. rewrite Hid. now apply in_map.
  - now apply IH.
Qed.

(** An UPDATE by primary key rewrites exactly the row it was loaded from. *)
Lemma save_in_place (l : list Queue.t) (e e' : Queue.t) :
  NoDup (map Queue.id l) -> In e l -> Queue.id e' = Queue.id e ->
  exists l1 l2,
    l = (l1 ++ e :: l2)%list
    /\ map (QueueRepository.replaceRow e') l = (l1 ++ e' :: l2)%list.
Proof.
  intros Hnd Hin Hid.
  destruct (in_split _ _ Hin) as (l1 & l2 & ->).
  exists l1, l2. split; [reflexivity|].
  rewrite map_app in Hnd. simpl in Hnd.
  pose proof (NoDup_remove_2 _ _ _ Hnd) as Hnotin.
  rewrite map_app. simpl.
  rewrite (replaceRow_other e' l1), (replaceRow_other e' l2).
  - unfold QueueRepository.replaceRow. rewrite Hid, Z.eqb_refl. reflexivity.
  - intros r Hr Heq. apply Hnotin, in_or_app. right.
    rewrite <- Hid, <- Heq. now apply in_map.
  - intros r Hr Heq. apply Hnotin, in_or_app. left.
    rewrite <- Hid, <- Heq. now apply in_map.
Qed.

(** A [where] clause that cannot tell the old row from the new one selects
    as many rows after the UPDATE as before. *)
Lemma filter_replaceRow_length (f : Queue.t -> bool) (l : list Queue.t) (e e' : Queue.t) :
  NoDup (map Queue.id l) -> In e l -> Queue.id e' = Queue.id e -> f e' = f e ->
  List.length (filter f (map (QueueRepository.replaceRow e') l))
  = List.length (filter f l).
Proof.
  intros Hnd Hin Hid Hf.
  destruct (save_in_place l e e' Hnd Hin Hid) as (l1 & l2 & -> & ->).
  rewrite !filter_app, !length_app. simpl. rewrite Hf.
  destruct (f e); reflexivity.
Qed.

(** The first row a [where] clause selects is still selected after the
    UPDATE, when the new row satisfies the clause too. *)
Lemma find_after_save (f : Queue.t -> bool) (l : list Queue.t) (e e' : Queue.t) :
  List.find f l = Some e -> Queue.id e' = Queue.id e -> f e' = true ->
  List.find f (map (QueueRepository.replaceRow e') l) = Some e'.
Proof.
  intros Hfind Hid Hf. induction l as [|r l IH]; simpl in *; [discriminate|].
  unfold QueueRepository.replaceRow at 1 2.
  destruct (Z.eqb_spec (Queue.id r) (Queue.id e')) as [Heq|Hne].
  - now rewrite Hf.
  - destruct (f r) eqn:Hr.
    + inversion Hfind; subst. congruence.
    + now apply IH.
Qed.

Lemma find_none_filter {A : Type} (f : A -> bool) (l : list A) :
  List.find f l = None -> filter f l = [].
Proof.
  induction l as [|a l IH]; simpl; [reflexivity|].
  destruct (f a); [discriminate | exact IH].
Qed.

Lemma find_some_filter_length {A : Type} (f : A -> bool) (l : list A) (x : A) :
  List.find f l = Some x -> (1 <= List.length (filter f l))%nat.
Proof.
  induction l as [|a l IH]; simpl; [discriminate|].
  destruct (f a); simpl; [lia | exact IH].
Qed.

Lemma filter_filter_length {A : Type} (f g : A -> bool) (l : list A) :
  (List.length (filter f (filter g l)) <= List.length (filter f l))%nat.
Proof.
  induction l as [|a l IH]; simpl; [lia|].
  destruct (g a); simpl; destruct (f a); simpl; lia.
Qed.

(** ** C5: emergency admission of a patient who is already waiting *)

Lemma addEmergencyPatient_existing (now patientId : Z) (db : Db) (p : Patient.t)
  (e : Queue.t) :
  List.find (fun p => Patient.id p =? patientId) (patients db) = Some p ->
  List.find (wherePatientStatus patientId "waiting") (queue db) = Some e ->
  QueueService.addEmergencyPatient now patientId db
  = (Ok (Some (promoted e)),
     setQueue db (map (QueueRepository.replaceRow (promoted e)) (queue db))).
Proof.
  intros Hp Hfind.
  unfold QueueService.addEmergencyPatient, bind, PatientRepository.findOne,
    QueueRepository.findOne.
  rewrite Hp, Hfind. reflexivity.
Qed.

(** C5. When the patient exists and already has a waiting entry,
    addEmergencyPatient returns that entry with priority emergency and queue
    number 0, rewrites it in place (same id, same position in the table, no
    row added), keeps the number of waiting entries of the patient (exactly
    one when the table had at most one per patient), and a second call
    returns the same entry and leaves the database as the first call left
    it. *)
Theorem addEmergencyPatient_promotes_in_place :
  forall (now1 now2 patientId : Z) (db : Db) (e : Queue.t),
    wf db ->
    (exists p, List.find (fun p => Patient.id p =? patientId) (patients db) = Some p) ->
    List.find (wherePatientStatus patientId "waiting") (queue db) = Some e ->
    exists db1,
      QueueService.addEmergencyPatient now1 patientId db = (Ok (Some (promoted e)), db1)
      /\ Queue.id (promoted e) = Queue.id e
      /\ Queue.priority (promoted e) = "emergency"
      /\ Queue.queueNumber (promoted e) = 0
      /\ (exists l1 l2,
            queue db = (l1 ++ e :: l2)%list
            /\ queue db1 = (l1 ++ promoted e :: l2)%list)
      /\ List.length (queue db1) = List.length (queue db)
      /\ waitingCount patientId db1 = waitingCount patientId db
      /\ (singleWaiting db -> waitingCount patientId db1 = 1%nat)
      /\ QueueService.addEmergencyPatient now2 patientId db1
         = (Ok (Some (promoted e)), db1).
Proof.
  intros now1 now2 patientId db e [Hnd _] [p Hp] Hfind.
  pose proof (find_some _ _ Hfind) as [Hin Hmatch].
  eexists. split; [apply (addEmergencyPatient_existing _ _ _ p e Hp Hfind)|].
  split; [reflexivity|]. split; [reflexivity|]. split; [reflexivity|].
  split; [apply (save_in_place _ e (promoted e)); [exact Hnd | exact Hin | reflexivity]|].
  split; [apply length_map|].
  assert (Hcount : waitingCount patientId
                     (setQueue db (map (QueueRepository.replaceRow (promoted e)) (queue db)))
                   = waitingCount patientId db).
  { apply (filter_replaceRow_length _ _ e (promoted e));
      [exact Hnd | exact Hin | reflexivity | reflexivity]. }
  split; [exact Hcount|].
  split.
  { intros Hsw. rewrite Hcount. specialize (Hsw patientId).
    pose proof (find_some_filter_length _ _ _ Hfind) as Hpos.
    unfold waitingCount in *. lia. }
  rewrite (addEmergencyPatient_existing now2 patientId _ p (promoted e)).
  - unfold setQueue. cbn [patients doctors queue queueSeq appointments appointmentSeq].
    change (promoted (promoted e)) with (promoted e).
    rewrite map_map.
    rewrite (map_ext _ _ (replaceRow_idempotent (promoted e))).
    reflexivity.
  - exact Hp.
  - apply (find_after_save _ _ e (promoted e) Hfind eq_refl Hmatch).
Qed.

Lemma addEmergencyPatient_promotes_in_place_witness :
  wf triageDb
  /\ QueueService.addEmergencyPatient 9000 1 triageDb
     = (Ok (Some (Queue.mk 1 0 1 "waiting" "emergency" 1000)),
        snd (QueueService.addEmergencyPatient 9000 1 triageDb))
  /\ List.length (queue (snd (QueueService.addEmergencyPatient 9000 1 triageDb))) = 2%nat.
Proof.
  assert (Hwf : wf triageDb) by wf_concrete.
  split; [exact Hwf|].
  destruct (addEmergencyPatient_promotes_in_place 9000 9500 1 triageDb
              (Queue.mk 1 1 1 "waiting" "normal" 1000) Hwf
              (ex_intro _ alice eq_refl) eq_refl)
    as (db1 & Hrun & _ & _ & _ & _ & Hlen & _ & _ & _).
  rewrite Hrun. split; [reflexivity | exact Hlen].
Defined.

(** ** C4: at most one waiting entry per patient *)

Lemma addToQueue_effect (now patientId : Z) (priority notes : option string) (db : Db) :
  snd (QueueService.addToQueue now patientId priority notes db) = db
  \/ (List.find (wherePatientStatus patientId "waiting") (queue db) = None
      /\ exists queueNumber priority',
           snd (QueueService.addToQueue now patientId priority notes db)
           = insertedDb db
               (Queue.mk (queueSeq db) queueNumber patientId "waiting" priority' now)).
Proof.
  unfold QueueService.addToQueue, bind, PatientRepository.findOne,
    QueueRepository.findOne, throw.
  destruct (List.find _ (patients db)); [|now left].
  destruct (List.find _ (queue db)) eqn:Hw; [now left|].
  right. split; [reflexivity|].
  destruct (String.eqb _ "emergency"); eexists; eexists; reflexivity.
Qed.

Lemma addEmergencyPatient_effect (now patientId : Z) (db : Db) :
  snd (QueueService.addEmergencyPatient now patientId db) = db
  \/ (exists e,
        List.find (wherePatientStatus patientId "waiting") (queue db) = Some e
        /\ snd (QueueService.addEmergencyPatient now patientId db)
           = setQueue db (map (QueueRepository.replaceRow (promoted e)) (queue db)))
  \/ (List.find (wherePatientStatus patientId "waiting") (queue db) = None
      /\ snd (QueueService.addEmergencyPatient now patientId db)
         = insertedDb db (Queue.mk (queueSeq db) 0 patientId "waiting" "emergency" now)).
Proof.
  unfold QueueService.addEmergencyPatient, bind, PatientRepository.findOne,
    QueueRepository.findOne, throw.
  destruct (List.find _ (patients db)); [|now left].
  destruct (List.find _ (queue db)) as [e|] eqn:Hw.
  - right. left. exists e. split; reflexivity.
  - right. right. split; reflexivity.
Qed.

Lemma removeFromQueue_effect (queueId : Z) (db : Db) :
  snd (QueueService.removeFromQueue queueId db) = db
  \/ exists e,
       snd (QueueService.removeFromQueue queueId db)
       = setQueue db (filter (fun r => negb (Queue.id r =? Queue.id e)) (queue db)).
Proof.
  unfold QueueService.removeFromQueue, bind, QueueRepository.findOne, throw.
  destruct (List.find _ (queue db)) as [e|]; [|now left].
  right. exists e. reflexivity.
Qed.

Lemma nodup_ids_filter (g : Queue.t -> bool) (l : list Queue.t) :
  NoDup (map Queue.id l) -> NoDup (map Queue.id (filter g l)).
Proof.
  induction l as [|r l IH]; simpl; intros Hnd; [constructor|].
  inversion Hnd as [|? ? Hnotin Hnd']; subst.
  destruct (g r); simpl; [|now apply IH].
  constructor; [|now apply IH].
  intros Hin. apply Hnotin.
  apply in_map_iff in Hin. destruct Hin as (x & Hx & Hin).
  apply filter_In in Hin. apply in_map_iff. exists x. tauto.
Qed.

Lemma inv_remove (g : Queue.t -> bool) (db : Db) :
  Inv db -> Inv (setQueue db (filter g (queue db))).
Proof.
  intros [[Hnd Hlt] Hsw]. split; [split|]; cbn [setQueue queue queueSeq].
  - now apply nodup_ids_filter.
  - rewrite Forall_forall in *. intros r Hr. apply Hlt.
    apply filter_In in Hr. tauto.
  - intros p. unfold waitingCount. cbn [setQueue queue].
    specialize (Hsw p). unfold waitingCount in Hsw.
    pose proof (filter_filter_length (wherePatientStatus p "waiting") g (queue db)). lia.
Qed.

Lemma inv_save (patientId : Z) (db : Db) (e : Queue.t) :
  Inv db ->
  List.find (wherePatientStatus patientId "waiting") (queue db) = Some e ->
  Inv (setQueue db (map (QueueRepository.replaceRow (promoted e)) (queue db))).
Proof.
  intros [[Hnd Hlt] Hsw] Hfind.
  pose proof (find_some _ _ Hfind) as [Hin _].
  split; [split|]; cbn [setQueue queue queueSeq].
  - now rewrite replaceRow_ids.
  - rewrite Forall_forall in *. intros r Hr.
    apply in_map_iff in Hr. destruct Hr as (x & <- & Hx).
    rewrite replaceRow_id. now apply Hlt.
  - intros p. unfold waitingCount. cbn [setQueue queue].
    rewrite (filter_replaceRow_length _ _ e (promoted e));
      [apply Hsw | exact Hnd | exact Hin | reflexivity | reflexivity].
Qed.

Lemma inv_insert (now queueNumber patientId : Z) (priority : string) (db : Db) :
  Inv db ->
  List.find (wherePatientStatus patientId "waiting") (queue db) = None ->
  Inv (insertedDb db (Queue.mk (queueSeq db) queueNumber patientId "waiting" priority now)).
Proof.
  intros [[Hnd Hlt] Hsw] Hnone.
  split; [split|]; cbn [insertedDb queue queueSeq].
  - rewrite map_app. simpl.
    assert (Hnotin : ~ In (queueSeq db) (map Queue.id (queue db))).
    { intros Hin. apply in_map_iff in Hin. destruct Hin as (x & Hx & Hin).
      rewrite Forall_forall in Hlt. specialize (Hlt x Hin). lia. }
    clear Hlt Hsw Hnone.
    induction (map Queue.id (queue db)) as [|a ids IH]; simpl.
    + constructor; [intros [] | constructor].
    + inversion Hnd as [|? ? Ha Hnd']; subst.
      constructor.
      * intros Hin. apply in_app_or in Hin. destruct Hin as [Hin|[Hin|[]]].
        -- contradiction.
        -- apply Hnotin. now left.
      * apply IH; [exact Hnd'|]. intros Hin. apply Hnotin. now right.
  - apply Forall_app. split.
    + eapply Forall_impl; [|exact Hlt]. simpl. intros; lia.
    + constructor; [simpl; lia | constructor].
  - intros p. unfold waitingCount. cbn [insertedDb queue].
    rewrite filter_app, length_app. simpl.
    unfold wherePatientStatus at 2. cbn [Queue.patientId Queue.status].
    destruct (Z.eqb_spec patientId p) as [->|Hne].
    + rewrite (find_none_filter _ _ Hnone). simpl. lia.
    + simpl. specialize (Hsw p). unfold waitingCount in Hsw. lia.
Qed.

Lemma step_inv (op : QueueOp) (db : Db) : Inv db -> Inv (step op db).
Proof.
  intros HI. destruct op as [now p priority notes | now p | queueId]; simpl.
  - destruct (addToQueue_effect now p priority notes db)
      as [-> | (Hnone & qn & pr & ->)]; [exact HI | now apply inv_insert].
  - destruct (addEmergencyPatient_effect now p db)
      as [-> | [(e & Hfind & ->) | (Hnone & ->)]];
      [exact HI | now apply (inv_save p) | now apply inv_insert].
  - destruct (removeFromQueue_effect queueId db) as [-> | (e & ->)];
      [exact HI | now apply inv_remove].
Qed.

Lemma run_inv (ops : list QueueOp) : forall db, Inv db -> Inv (run ops db).
Proof.
  induction ops as [|op ops IH]; intros db HI; simpl; [exact HI|].
  apply IH, step_inv, HI.
Qed.

Lemma service_addToQueue_rejects (now patientId : Z) (priority notes : option string)
  (db : Db) (p : Patient.t) (e : Queue.t) :
  List.find (fun p => Patient.id p =? patientId) (patients db) = Some p ->
  List.find (wherePatientStatus patientId "waiting") (queue db) = Some e ->
  QueueService.addToQueue now patientId priority notes db = (Throw BadRequest, db).
Proof.
  intros Hp Hw.
  unfold QueueService.addToQueue, bind, PatientRepository.findOne,
    QueueRepository.findOne, throw.
  now rewrite Hp, Hw.
Qed.

Lemma service_addToQueue_throws (now patientId : Z) (priority notes : option string)
  (db : Db) (e : Queue.t) :
  List.find (wherePatientStatus patientId "waiting") (queue db) = Some e ->
  exists x, QueueService.addToQueue now patientId priority notes db = (Throw x, db).
Proof.
  intros Hw.
  unfold QueueService.addToQueue, bind, PatientRepository.findOne,
    QueueRepository.findOne, throw.
  destruct (List.find _ (patients db)); [rewrite Hw|]; eexists; reflexivity.
Qed.

Lemma controller_addToQueue_rejects (now patientId : Z) (priority notes : option string)
  (db : Db) (e : Queue.t) :
  List.find (wherePatientStatus patientId "waiting") (queue db) = Some e ->
  QueueController.addToQueue now
    (QueueController.mkAddToQueueDto (Some patientId) priority notes) db
  = (Throw BadRequest, db).
Proof.
  intros Hw.
  unfold QueueController.addToQueue, catchAs.
  cbn [QueueController.dto_patientId QueueController.dto_priority
       QueueController.dto_notes].
  destruct ((patientId =? 0) || (patientId <=? 0)); [reflexivity|].
  destruct (JS.truthy priority && _); [reflexivity|].
  unfold bind.
  destruct (service_addToQueue_throws now patientId
              (Some (JS.or priority "normal")) notes db e Hw) as [x Hx].
  rewrite Hx. reflexivity.
Qed.

(** C4. From a well-formed table in which every patient has at most one
    waiting entry, any sequence of addToQueue, addEmergencyPatient and
    removeFromQueue calls (succeeding or failing) leads to a table with the
    same property; and there, admitting a patient who has a waiting entry is
    answered with BadRequest by the controller, and by the service when the
    patient record exists, the database being left as it was. *)
Theorem single_waiting_entry_invariant :
  forall (ops : list QueueOp) (db : Db),
    wf db ->
    singleWaiting db ->
    singleWaiting (run ops db)
    /\ forall (now patientId : Z) (priority notes : option string) (e : Queue.t),
         List.find (wherePatientStatus patientId "waiting") (queue (run ops db)) = Some e ->
         QueueController.addToQueue now
           (QueueController.mkAddToQueueDto (Some patientId) priority notes) (run ops db)
         = (Throw BadRequest, run ops db)
         /\ ((exists p,
                List.find (fun p => Patient.id p =? patientId) (patients (run ops db))
                = Some p) ->
             QueueService.addToQueue now patientId priority notes (run ops db)
             = (Throw BadRequest, run ops db)).
Proof.
  intros ops db Hwf Hsw.
  split; [apply (run_inv ops db (conj Hwf Hsw))|].
  intros now patientId priority notes e Hfind. split.
  - apply (controller_addToQueue_rejects _ _ _ _ _ e Hfind).
  - intros [p Hp]. apply (service_addToQueue_rejects _ _ _ _ _ p e Hp Hfind).
Qed.

Lemma single_waiting_entry_invariant_witness :
  wf emptyDb
  /\ singleWaiting emptyDb
  /\ singleWaiting (run frontDeskDay emptyDb)
  /\ map (fun q => (Queue.id q, Queue.patientId q, Queue.priority q))
         (queue (run frontDeskDay emptyDb))
     = [(2, 2, "emergency"); (3, 1, "emergency")].
Proof.
  assert (Hwf : wf emptyDb) by wf_concrete.
  assert (Hsw : singleWaiting emptyDb) by (intros p; unfold waitingCount; simpl; lia).
  split; [exact Hwf|]. split; [exact Hsw|].
  split; [|reflexivity].
  exact (proj1 (single_waiting_entry_invariant frontDeskDay emptyDb Hwf Hsw)).
Defined.

(** ** C2: two bookings of the same doctor at the same time *)

Section AppointmentConflict.

Variable parseDate : string -> option Z.

Lemma plainToInstance_default_status (body : CreateAppointmentDto) :
  status body = None -> status (plainToInstance body) = Some "booked".
Proof.
  intros H. unfold plainToInstance. cbn. now rewrite H.
Qed.

(** What a successful POST /appointments without a status has checked and
    stored. *)
Lemma create_booked_inversion (now : Z) (body : CreateAppointmentDto) (db db1 : Db)
  (a : Appointment.t) :
  status body = None ->
  AppointmentController_create parseDate now body db = (Ok a, db1) ->
  exists doctorId' patientId' text date doctor patient,
    doctorId body = Some doctorId'
    /\ patientId body = Some patientId'
    /\ appointmentDateTime body = Some text
    /\ ((doctorId' =? 0) || (doctorId' <=? 0)) = false
    /\ (patientId' =? 0) = false
    /\ String.eqb text "" = false
    /\ List.find (fun d => Doctor.id d =? doctorId') (doctors db) = Some doctor
    /\ Doctor.isActive doctor = true
    /\ List.find (fun p => Patient.id p =? patientId') (patients db) = Some patient
    /\ parseDate text = Some date
    /\ List.find
         (fun x =>
            (Appointment.doctorId x =? doctorId')
            && (Appointment.appointmentDateTime x =? date)
            && String.eqb (Appointment.status x) "scheduled")
         (appointments db) = None
    /\ a = Appointment.mk (appointmentSeq db) doctorId' patientId' date "booked"
             (notes body) now
    /\ db1 = mkDb (patients db) (doctors db) (queue db) (queueSeq db)
               (appointments db ++ [a]) (appointmentSeq db + 1).
Proof.
  intros Hst Hrun.
  unfold AppointmentController_create, plainToInstance in Hrun.
  cbn [doctorId patientId appointmentDateTime notes status newCreateAppointmentDto assign]
    in Hrun.
  rewrite Hst in Hrun.
  destruct (doctorId body) as [d|]; [|discriminate].
  destruct (patientId body) as [p|]; [|discriminate].
  destruct (appointmentDateTime body) as [text|]; [|discriminate].
  cbn [assign] in Hrun.
  destruct (d =? 0) eqn:Hd0; [discriminate|].
  destruct (p =? 0) eqn:Hp0; [discriminate|].
  destruct (String.eqb text "") eqn:Ht; [discriminate|].
  unfold AppointmentService_create, bind, DoctorRepository.findOne,
    PatientRepository.findOne, AppointmentRepository.findOneBySlot, throw in Hrun.
  destruct ((d =? 0) || (d <=? 0)) eqn:Hd; [discriminate|].
  destruct (List.find _ (doctors db)) as [doctor|] eqn:Hdoc; [|discriminate].
  destruct (Doctor.isActive doctor) eqn:Hact; [|discriminate].
  cbn [negb] in Hrun.
  destruct (List.find _ (patients db)) as [patient|] eqn:Hpat; [|discriminate].
  destruct (parseDate text) as [date|] eqn:Hdate; [|discriminate].
  destruct (List.find _ (appointments db)) as [x|] eqn:Hslot; [discriminate|].
  cbn in Hrun. inversion Hrun; subst; clear Hrun.
  destruct (notes body); exists d, p, text, date, doctor, patient;
    repeat split; assumption || reflexivity.
Qed.

(** C2. Two POST /appointments requests that leave the status out and name
    the same doctor and the same date-time text: if each would succeed on
    the database as it is, then the second still succeeds after the first.
    Both rows are stored with status booked for the same doctor and the same
    instant, booked differs from scheduled, the only status the conflict
    check looks for, and the table holds the two new rows. *)
Theorem create_default_status_never_conflicts :
  forall (now1 now2 : Z) (body1 body2 : CreateAppointmentDto) (db db1 db2' : Db)
         (a1 a2' : Appointment.t),
    status body1 = None ->
    status body2 = None ->
    doctorId body1 = doctorId body2 ->
    appointmentDateTime body1 = appointmentDateTime body2 ->
    AppointmentController_create parseDate now1 body1 db = (Ok a1, db1) ->
    AppointmentController_create parseDate now2 body2 db = (Ok a2', db2') ->
    exists a2 db2,
      AppointmentController_create parseDate now2 body2 db1 = (Ok a2, db2)
      /\ Appointment.status a1 = "booked"
      /\ Appointment.status a2 = "booked"
      /\ String.eqb "booked" "scheduled" = false
      /\ Appointment.doctorId a1 = Appointment.doctorId a2
      /\ Appointment.appointmentDateTime a1 = Appointment.appointmentDateTime a2
      /\ appointments db2 = (appointments db ++ [a1; a2])%list.
Proof.
  intros now1 now2 body1 body2 db db1 db2' a1 a2' Hs1 Hs2 Hdoc Htime Hrun1 Hrun2.
  destruct (create_booked_inversion _ _ _ _ _ Hs1 Hrun1)
    as (d1 & p1 & t1 & date1 & doc1 & pat1 & Hd1 & Hp1 & Ht1 & Hdpos1 & Hp01 & Hne1
        & Hfd1 & Hact1 & Hfp1 & Hparse1 & Hslot1 & Ha1 & Hdb1).
  destruct (create_booked_inversion _ _ _ _ _ Hs2 Hrun2)
    as (d2 & p2 & t2 & date2 & doc2 & pat2 & Hd2 & Hp2 & Ht2 & Hdpos2 & Hp02 & Hne2
        & Hfd2 & Hact2 & Hfp2 & Hparse2 & Hslot2 & Ha2 & Hdb2).
  assert (d2 = d1) by congruence. assert (t2 = t1) by congruence. subst d2 t2.
  assert (date2 = date1) by congruence. subst date2.
  assert (Hd0 : (d1 =? 0) = false).
  { apply orb_false_iff in Hdpos1. tauto. }
  eexists; eexists. split.
  - unfold AppointmentController_create, plainToInstance.
    cbn [doctorId patientId appointmentDateTime notes status newCreateAppointmentDto
         assign].
    rewrite Hs2, Hd2, Hp2, Ht2. cbn [assign].
    rewrite Hd0, Hp02, Hne2.
    unfold AppointmentService_create, bind, DoctorRepository.findOne,
      PatientRepository.findOne, AppointmentRepository.findOneBySlot, throw.
    rewrite Hdpos1. subst db1. cbn [doctors].
    rewrite Hfd2. cbn [patients]. rewrite Hact2. cbn [negb patients].
    rewrite Hfp2, Hparse1. cbn [appointments].
    rewrite find_app_first, Hslot1. subst a1.
    cbn [List.find Appointment.status Appointment.doctorId
         Appointment.appointmentDateTime].
    rewrite !Z.eqb_refl. cbn [andb String.eqb Ascii.eqb Bool.eqb].
    reflexivity.
  - subst a1 db1. cbn. rewrite <- app_assoc. repeat split; reflexivity.
Qed.

End AppointmentConflict.

Lemma create_default_status_never_conflicts_witness :
  exists a1 db1 a2 db2,
    AppointmentController_create sampleParseDate 100 (bookingFor 1) clinicDb = (Ok a1, db1)
    /\ AppointmentController_create sampleParseDate 200 (bookingFor 2) db1 = (Ok a2, db2)
    /\ map (fun a => (Appointment.id a, Appointment.doctorId a, Appointment.status a))
           (appointments db2)
       = [(1, 4, "booked"); (2, 4, "booked")].
Proof.
  destruct (create_default_status_never_conflicts sampleParseDate 100 200
              (bookingFor 1) (bookingFor 2) clinicDb
              (snd (AppointmentController_create sampleParseDate 100 (bookingFor 1) clinicDb))
              (snd (AppointmentController_create sampleParseDate 200 (bookingFor 2) clinicDb))
              (Appointment.mk 1 4 1 1714557600000 "booked" None 100)
              (Appointment.mk 1 4 2 1714557600000 "booked" None 200)
              eq_refl eq_refl eq_refl eq_refl eq_refl eq_refl)
    as (a2 & db2 & Hrun2 & _ & _ & _ & _ & _ & Happs).
  exists (Appointment.mk 1 4 1 1714557600000 "booked" None 100).
  eexists. exists a2, db2.
  split; [reflexivity|]. split; [exact Hrun2|].
  rewrite Happs.
  assert (Ha2 : a2 = Appointment.mk 2 4 2 1714557600000 "booked" None 200).
  { vm_compute in Hrun2. now inversion Hrun2. }
  rewrite Ha2. reflexivity.
Defined.

(** The fallback inside the service is a different string: called directly
    without a status, [AppointmentService.create] stores scheduled, and a
    second such call for the same slot is refused. *)
Lemma service_create_fallback_scheduled :
  exists a1 db1,
    AppointmentService_create sampleParseDate 100 4 1 "2024-05-01T10:00:00Z" None None
      clinicDb = (Ok a1, db1)
    /\ Appointment.status a1 = "scheduled"
    /\ AppointmentService_create sampleParseDate 200 4 2 "2024-05-01T10:00:00Z" None None
         db1 = (Throw BadRequest, db1).
Proof.
  eexists; eexists. split; [reflexivity|]. split; reflexivity.
Qed.

(** * Further properties of the queue and appointment code *)

(** ** More facts about the tables *)

Lemma find_whereId_in (l : list Queue.t) (e : Queue.t) :
  NoDup (map Queue.id l) -> In e l -> List.find (whereId (Queue.id e)) l = Some e.
Proof.
  intros Hnd Hin.
  destruct (List.find (whereId (Queue.id e)) l) as [x|] eqn:Hfind.
  - pose proof (find_some _ _ Hfind) as [Hx Hid].
    unfold whereId in Hid. apply Z.eqb_eq in Hid.
    now rewrite (nodup_id_unique l e x Hnd Hin Hx Hid).
  - exfalso. pose proof (find_none _ _ Hfind e Hin) as Hne.
    unfold whereId in Hne. now rewrite Z.eqb_refl in Hne.
Qed.

Lemma find_whereId_removed (id : Z) (l : list Queue.t) (e : Queue.t) :
  Queue.id e = id ->
  List.find (whereId id) (filter (fun r => negb (Queue.id r =? Queue.id e)) l) = None.
Proof.
  intros Hid. induction l as [|r l IH]; simpl; [reflexivity|].
  destruct (Z.eqb_spec (Queue.id r) (Queue.id e)) as [Heq|Hne]; simpl; [exact IH|].
  unfold whereId at 1. destruct (Z.eqb_spec (Queue.id r) id); [congruence | exact IH].
Qed.

Lemma perm_filter_length {A : Type} (f : A -> bool) (l l' : list A) :
  Permutation l l' -> List.length (filter f l) = List.length (filter f l').
Proof.
  induction 1 as [|x l l' _ IH|x y l|l l' l'' _ IH1 _ IH2]; simpl.
  - reflexivity.
  - destruct (f x); simpl; now rewrite IH.
  - destruct (f x), (f y); reflexivity.
  - now rewrite IH1.
Qed.

Lemma orderBy_nil (l : list Queue.t) : QueueRepository.orderBy l = [] -> l = [].
Proof.
  intros H. pose proof (orderBy_perm l) as Hp. rewrite H in Hp.
  now apply Permutation_nil in Hp.
Qed.

(** ** X1: removal returns the stored entry and the id is gone *)

(** X1. removeFromQueue on an id that is in the table returns the stored
    entry, deletes every row with that id and nothing else (the other rows
    keep their order), so that the id can no longer be found and a second
    removal is NotFound; on an id that is not in the table it is NotFound and
    the database is unchanged. *)
Theorem removeFromQueue_returns_snapshot :
  forall (queueId : Z) (db : Db),
    match List.find (whereId queueId) (queue db) with
    | Some e =>
        exists db',
          QueueService.removeFromQueue queueId db = (Ok e, db')
          /\ queue db' = filter (fun r => negb (Queue.id r =? queueId)) (queue db)
          /\ List.find (whereId queueId) (queue db') = None
          /\ QueueService.removeFromQueue queueId db' = (Throw NotFound, db')
    | None => QueueService.removeFromQueue queueId db = (Throw NotFound, db)
    end.
Proof.
  intros queueId db.
  destruct (List.find (whereId queueId) (queue db)) as [e|] eqn:Hfind.
  - pose proof (find_whereId_id _ _ _ Hfind) as Hid.
    eexists. split.
    { unfold QueueService.removeFromQueue, bind, QueueRepository.findOne.
      rewrite Hfind. reflexivity. }
    cbn [queue]. rewrite Hid.
    pose proof (find_whereId_removed queueId (queue db) e Hid) as Hgone.
    rewrite Hid in Hgone.
    split; [reflexivity|]. split; [exact Hgone|].
    unfold QueueService.removeFromQueue, bind, QueueRepository.findOne.
    cbn [queue]. rewrite Hgone. reflexivity.
  - unfold QueueService.removeFromQueue, bind, QueueRepository.findOne.
    rewrite Hfind. reflexivity.
Qed.

(** ** X2 to X4: calling the next patient *)

Lemma filter_none {A : Type} (f : A -> bool) (l : list A) :
  (forall x, In x l -> f x = false) -> filter f l = [].
Proof.
  induction l as [|a l IH]; intros H; simpl; [reflexivity|].
  rewrite (H a (or_introl eq_refl)). apply IH. intros x Hx. apply H. now right.
Qed.

Lemma nobody_waiting_filter (db : Db) :
  (forall e, In e (queue db) -> Queue.status e <> "waiting") ->
  filter (whereStatus "waiting") (queue db) = [].
Proof.
  intros H. apply filter_none. intros e He. unfold whereStatus.
  apply String.eqb_neq. now apply H.
Qed.

Lemma callNext_nobody_waiting :
  forall db : Db,
    (forall e, In e (queue db) -> Queue.status e <> "waiting") ->
    QueueService_callNextPatient db
    = (Ok (mkCallNextResult None "No patients waiting in queue"), db)
    /\ QueueController_callNextPatient db
       = (Ok (mkCallNextResponse false "No patients available to call" None None), db)
    /\ QueueController_getNextPatient db
       = (Ok (mkNextPatientResponse "No patients waiting in queue" None None), db).
Proof.
  intros db H.
  assert (Hnext : QueueService.getNextPatient db = (Ok None, db)).
  { unfold QueueService.getNextPatient, QueueRepository.findOneOrdered.
    now rewrite (nobody_waiting_filter db H). }
  assert (Hcall : QueueService_callNextPatient db
                  = (Ok (mkCallNextResult None "No patients waiting in queue"), db)).
  { unfold QueueService_callNextPatient, bind. now rewrite Hnext. }
  split; [exact Hcall|]. split.
  - unfold QueueController_callNextPatient, catchAs, bind. now rewrite Hcall.
  - unfold QueueController_getNextPatient, catchAs, bind. now rewrite Hnext.
Qed.

(** X2. When no entry is waiting, callNextPatient changes nothing and
    reports that nobody is waiting, and so do the handlers POST
    /queue/call-next and GET /queue/next. *)
Theorem callNextPatient_nobody_waiting :
  forall db : Db,
    (forall e, In e (queue db) -> Queue.status e <> "waiting") ->
    QueueService_callNextPatient db
    = (Ok (mkCallNextResult None "No patients waiting in queue"), db)
    /\ QueueController_callNextPatient db
       = (Ok (mkCallNextResponse false "No patients available to call" None None), db)
    /\ QueueController_getNextPatient db
       = (Ok (mkNextPatientResponse "No patients waiting in queue" None None), db).
Proof.
  exact callNext_nobody_waiting.
Qed.

Lemma callNextPatient_nobody_waiting_witness :
  (forall e, In e (queue closedDb) -> Queue.status e <> "waiting")
  /\ fst (QueueService_callNextPatient closedDb)
     = Ok (mkCallNextResult None "No patients waiting in queue").
Proof.
  assert (H : forall e, In e (queue closedDb) -> Queue.status e <> "waiting").
  { simpl. intros e [<-|[<-|[]]]; simpl; discriminate. }
  split; [exact H|].
  now rewrite (proj1 (callNextPatient_nobody_waiting closedDb H)).
Defined.

Lemma replaceRow_withStatus_wf (db : Db) (e : Queue.t) (status : string) :
  wf db ->
  wf (setQueue db (map (QueueRepository.replaceRow (withStatus e status)) (queue db))).
Proof.
  intros [Hnd Hlt]. split; cbn [setQueue queue queueSeq].
  - now rewrite replaceRow_ids.
  - rewrite Forall_forall in *. intros r Hr.
    apply in_map_iff in Hr. destruct Hr as (x & <- & Hx).
    rewrite replaceRow_id. now apply Hlt.
Qed.

Lemma callNextPatient_some (db : Db) (e : Queue.t) :
  wf db ->
  QueueService.getNextPatient db = (Ok (Some e), db) ->
  QueueService_callNextPatient db
  = (Ok (mkCallNextResult (Some (withStatus e "with_doctor"))
           (QueueService_generateAnnouncement (withStatus e "with_doctor")
              (JS.or (option_map Patient.name
                        (List.find (fun p => Patient.id p =? Queue.patientId e)
                                   (patients db)))
                     "Unknown Patient"))),
     setQueue db
       (map (QueueRepository.replaceRow (withStatus e "with_doctor")) (queue db)))
  /\ In e (queue db)
  /\ Queue.status e = "waiting".
Proof.
  intros [Hnd _] Hnext.
  pose proof (getNextPatient_first db) as Hfirst. rewrite Hnext in Hfirst.
  destruct Hfirst as (_ & Hin & Hst & _).
  split; [|split; assumption].
  unfold QueueService_callNextPatient. unfold bind at 1. rewrite Hnext.
  unfold bind at 1.
  unfold QueueService.updateStatus, bind, QueueRepository.findOne.
  cbn [JS.includes QueueService.validStatuses existsb String.eqb Ascii.eqb Bool.eqb
       orb negb].
  rewrite (find_whereId_in _ _ Hnd Hin). reflexivity.
Qed.

Lemma callNext_serves_selected :
  forall (db : Db) (e : Queue.t),
    wf db ->
    QueueService.getNextPatient db = (Ok (Some e), db) ->
    exists name db',
      QueueService_callNextPatient db
      = (Ok (mkCallNextResult (Some (withStatus e "with_doctor"))
               (QueueService_generateAnnouncement (withStatus e "with_doctor") name)),
         db')
      /\ (exists l1 l2,
            queue db = (l1 ++ e :: l2)%list
            /\ queue db' = (l1 ++ withStatus e "with_doctor" :: l2)%list)
      /\ (waitingTotal db' + 1 = waitingTotal db)%nat
      /\ wf db'.
Proof.
  intros db e Hwf Hnext.
  destruct (callNextPatient_some db e Hwf Hnext) as (Hcall & Hin & Hst).
  eexists; eexists. split; [exact Hcall|].
  destruct Hwf as [Hnd Hlt].
  destruct (save_in_place (queue db) e (withStatus e "with_doctor") Hnd Hin eq_refl)
    as (l1 & l2 & Hq & Hq').
  split; [exists l1, l2; split; [exact Hq | exact Hq']|].
  split; [|apply replaceRow_withStatus_wf; split; assumption].
  unfold waitingTotal. cbn [setQueue queue]. rewrite Hq', Hq.
  rewrite !filter_app, !length_app. simpl.
  assert (Hw : whereStatus "waiting" e = true).
  { unfold whereStatus. now rewrite Hst. }
  rewrite Hw. simpl. lia.
Qed.



Lemma someone_waiting_next (db : Db) :
  (1 <= waitingTotal db)%nat ->
  exists e, QueueService.getNextPatient db = (Ok (Some e), db).
Proof.
  intros Hpos.
  unfold QueueService.getNextPatient, QueueRepository.findOneOrdered.
  destruct (QueueRepository.orderBy (filter (whereStatus "waiting") (queue db)))
    as [|e l] eqn:Hord.
  - apply orderBy_nil in Hord. unfold waitingTotal in Hpos. rewrite Hord in Hpos.
    simpl in Hpos. lia.
  - exists e. reflexivity.
Qed.

Lemma callNextTimes_count (k : nat) :
  forall db : Db,
    wf db ->
    (k <= waitingTotal db)%nat ->
    wf (callNextTimes k db)
    /\ waitingTotal (callNextTimes k db) = (waitingTotal db - k)%nat.
Proof.
  induction k as [|k IH]; intros db Hwf Hk; simpl.
  - split; [exact Hwf | lia].
  - destruct (someone_waiting_next db) as [e Hnext]; [lia|].
    destruct (callNext_serves_selected db e Hwf Hnext)
      as (name & db' & Hcall & _ & Hcount & Hwf').
    rewrite Hcall. cbn [snd].
    destruct (IH db' Hwf') as [Hwf'' Hn]; [lia|].
    split; [exact Hwf''|]. rewrite Hn. lia.
Qed.

(** X4. On a well-formed table, each of the first n calls of callNextPatient,
    n being the number of waiting entries, serves one of them: after k calls
    n - k entries are waiting, and after n calls nobody is and the next call
    reports an empty queue without changing anything. *)
Theorem callNextPatient_drains_queue :
  forall (db : Db) (k : nat),
    wf db ->
    (k <= waitingTotal db)%nat ->
    waitingTotal (callNextTimes k db) = (waitingTotal db - k)%nat
    /\ (k = waitingTotal db ->
        QueueService_callNextPatient (callNextTimes k db)
        = (Ok (mkCallNextResult None "No patients waiting in queue"),
           callNextTimes k db)).
Proof.
  intros db k Hwf Hk.
  destruct (callNextTimes_count k db Hwf Hk) as [_ Hn].
  split; [exact Hn|].
  intros ->. apply callNext_nobody_waiting.
  intros e He Hst.
  assert (Hpos : (1 <= waitingTotal (callNextTimes (waitingTotal db) db))%nat).
  { unfold waitingTotal at 1.
    assert (Hin : In e (filter (whereStatus "waiting")
                          (queue (callNextTimes (waitingTotal db) db)))).
    { apply filter_In. split; [exact He|]. unfold whereStatus. now apply String.eqb_eq. }
    destruct (filter _ _); [contradiction | simpl; lia]. }
  lia.
Qed.

Lemma callNextPatient_drains_queue_witness :
  wf returningDb
  /\ (2 <= waitingTotal returningDb)%nat
  /\ waitingTotal (callNextTimes 2 returningDb) = 0%nat.
Proof.
  assert (Hwf : wf returningDb) by wf_concrete.
  assert (Hk : (2 <= waitingTotal returningDb)%nat) by (vm_compute; lia).
  split; [exact Hwf|]. split; [exact Hk|].
  exact (proj1 (callNextPatient_drains_queue returningDb 2 Hwf Hk)).
Defined.

(** ** X5: updateStatus does not guard the single waiting entry *)

Lemma updateStatus_waiting_existing (db : Db) (e : Queue.t) :
  List.find (whereId (Queue.id e)) (queue db) = Some e ->
  QueueService.updateStatus (Queue.id e) "waiting" db
  = (Ok (withStatus e "waiting"),
     setQueue db (map (QueueRepository.replaceRow (withStatus e "waiting")) (queue db))).
Proof.
  intros Hfind.
  unfold QueueService.updateStatus, bind, QueueRepository.findOne.
  cbn [JS.includes QueueService.validStatuses existsb String.eqb Ascii.eqb Bool.eqb
       orb negb].
  rewrite Hfind. reflexivity.
Qed.

(** X5. updateStatus accepts the target waiting for an entry in any state
    and does not look at the patient's other entries: on a well-formed table,
    putting a non-waiting entry of a patient back to waiting raises that
    patient's number of waiting entries by one, so a patient who already had
    a waiting entry ends up with two. *)
Theorem updateStatus_can_duplicate_waiting :
  forall (db : Db) (e : Queue.t),
    wf db ->
    In e (queue db) ->
    Queue.status e <> "waiting" ->
    exists db',
      QueueService.updateStatus (Queue.id e) "waiting" db = (Ok (withStatus e "waiting"), db')
      /\ waitingCount (Queue.patientId e) db' = S (waitingCount (Queue.patientId e) db)
      /\ ((1 <= waitingCount (Queue.patientId e) db)%nat -> ~ singleWaiting db').
Proof.
  intros db e [Hnd _] Hin Hst.
  eexists. split.
  { apply updateStatus_waiting_existing. now apply find_whereId_in. }
  assert (Hcount :
            waitingCount (Queue.patientId e)
              (setQueue db
                 (map (QueueRepository.replaceRow (withStatus e "waiting")) (queue db)))
            = S (waitingCount (Queue.patientId e) db)).
  { unfold waitingCount. cbn [setQueue queue].
    destruct (save_in_place (queue db) e (withStatus e "waiting") Hnd Hin eq_refl)
      as (l1 & l2 & Hq & Hq').
    rewrite Hq', Hq. rewrite !filter_app, !length_app. simpl.
    assert (Hnew : wherePatientStatus (Queue.patientId e) "waiting"
                     (withStatus e "waiting") = true).
    { unfold wherePatientStatus. cbn. now rewrite Z.eqb_refl. }
    assert (Hold : wherePatientStatus (Queue.patientId e) "waiting" e = false).
    { unfold wherePatientStatus. rewrite Z.eqb_refl. simpl.
      now apply String.eqb_neq. }
    rewrite Hnew, Hold. simpl. lia. }
  split; [exact Hcount|].
  intros Hpos Hsw. specialize (Hsw (Queue.patientId e)). lia.
Qed.

Lemma updateStatus_can_duplicate_waiting_witness :
  wf returningDb
  /\ exists db',
       QueueService.updateStatus 1 "waiting" returningDb
       = (Ok (Queue.mk 1 1 1 "waiting" "normal" 1000), db')
       /\ waitingCount 1 db' = 2%nat.
Proof.
  assert (Hwf : wf returningDb) by wf_concrete.
  split; [exact Hwf|].
  destruct (updateStatus_can_duplicate_waiting returningDb
              (Queue.mk 1 1 1 "with_doctor" "normal" 1000) Hwf
              (or_introl eq_refl))
    as (db' & Hrun & Hcount & _).
  { simpl. discriminate. }
  exists db'. split; [exact Hrun | exact Hcount].
Defined.

(** ** X6: what updatePriority leaves alone *)

Lemma updatePriority_effect (queueId : Z) (priority : string) (db : Db) :
  snd (QueueService.updatePriority queueId priority db) = db
  \/ exists e queueNumber,
       List.find (whereId queueId) (queue db) = Some e
       /\ snd (QueueService.updatePriority queueId priority db)
          = setQueue db
              (map (QueueRepository.replaceRow (withPriority e priority queueNumber))
                   (queue db)).
Proof.
  unfold QueueService.updatePriority.
  destruct (negb (JS.includes QueueService.validPriorities priority)); [now left|].
  unfold bind, QueueRepository.findOne.
  destruct (List.find (whereId queueId) (queue db)) as [e|] eqn:Hfind; [|now left].
  right. exists e.
  destruct (String.eqb priority "emergency").
  - exists 0. split; reflexivity.
  - destruct (String.eqb priority "urgent" && (Queue.queueNumber e =? 0)).
    + eexists. split; reflexivity.
    + exists (Queue.queueNumber e). split; reflexivity.
Qed.

Lemma identity_waiting_count (patientId : Z) (l : list Queue.t) :
  forall l' : list Queue.t,
    map identityOf l = map identityOf l' ->
    List.length (filter (wherePatientStatus patientId "waiting") l)
    = List.length (filter (wherePatientStatus patientId "waiting") l').
Proof.
  induction l as [|a l IH]; intros [|b l'] H; simpl in *; try discriminate;
    [reflexivity|].
  inversion H as [[Hid Hp Hs Hc Hrest]].
  assert (Hw : wherePatientStatus patientId "waiting" a
               = wherePatientStatus patientId "waiting" b).
  { unfold wherePatientStatus. now rewrite Hp, Hs. }
  rewrite Hw. specialize (IH l' Hrest).
  destruct (wherePatientStatus patientId "waiting" b); simpl; lia.
Qed.

(** X6. On a well-formed table updatePriority, whatever its arguments and
    outcome, keeps the id, patient, status and creation time of every row in
    place, hence every patient's number of waiting entries and the
    single-waiting-entry property; and a change to normal keeps the queue
    number of the entry, also when that number is 0. *)
Theorem updatePriority_keeps_rows_identity :
  forall (queueId : Z) (priority : string) (db : Db),
    wf db ->
    map identityOf (queue (snd (QueueService.updatePriority queueId priority db)))
    = map identityOf (queue db)
    /\ (forall patientId,
          waitingCount patientId (snd (QueueService.updatePriority queueId priority db))
          = waitingCount patientId db)
    /\ (singleWaiting db ->
        singleWaiting (snd (QueueService.updatePriority queueId priority db)))
    /\ (forall e,
          List.find (whereId queueId) (queue db) = Some e ->
          fst (QueueService.updatePriority queueId "normal" db)
          = Ok (withPriority e "normal" (Queue.queueNumber e))).
Proof.
  intros queueId priority db [Hnd _].
  assert (Hident :
            map identityOf (queue (snd (QueueService.updatePriority queueId priority db)))
            = map identityOf (queue db)).
  { destruct (updatePriority_effect queueId priority db)
      as [-> | (e & qn & Hfind & ->)]; [reflexivity|].
    cbn [setQueue queue].
    pose proof (find_some _ _ Hfind) as [Hin _].
    destruct (save_in_place (queue db) e (withPriority e priority qn) Hnd Hin eq_refl)
      as (l1 & l2 & Hq & Hq').
    rewrite Hq', Hq, !map_app. reflexivity. }
  assert (Hcount :
            forall patientId,
              waitingCount patientId
                (snd (QueueService.updatePriority queueId priority db))
              = waitingCount patientId db).
  { intros p. unfold waitingCount. now apply identity_waiting_count. }
  split; [exact Hident|]. split; [exact Hcount|]. split.
  - intros Hsw p. rewrite Hcount. apply Hsw.
  - intros e Hfind.
    unfold QueueService.updatePriority, bind, QueueRepository.findOne.
    cbn [JS.includes QueueService.validPriorities existsb String.eqb Ascii.eqb
         Bool.eqb orb negb].
    rewrite Hfind. reflexivity.
Qed.

Lemma updatePriority_keeps_rows_identity_witness :
  wf triageDb
  /\ fst (QueueService.updatePriority 2 "normal" triageDb)
     = Ok (Queue.mk 2 0 2 "waiting" "normal" 2000)
  /\ waitingCount 2 (snd (QueueService.updatePriority 2 "normal" triageDb)) = 1%nat.
Proof.
  assert (Hwf : wf triageDb) by wf_concrete.
  split; [exact Hwf|].
  destruct (updatePriority_keeps_rows_identity 2 "normal" triageDb Hwf)
    as (_ & Hcount & _ & Hnormal).
  split.
  - exact (Hnormal (Queue.mk 2 0 2 "waiting" "emergency" 2000) eq_refl).
  - rewrite Hcount. reflexivity.
Defined.

(** ** X7 and X8: listings and the order of service *)

(** X7. findByStatus returns, without changing anything, exactly the rows
    with the requested status, each once, arranged so that every row is
    listed before all later ones under the query's order; findAll does the
    same for the whole table, and GET /queue answers with one or the other
    and never fails. *)
Theorem findByStatus_sorted_selection :
  forall (status : string) (db : Db),
    exists rows all,
      QueueService_findByStatus status db = (Ok rows, db)
      /\ Permutation rows (filter (whereStatus status) (queue db))
      /\ StronglySorted listedBefore rows
      /\ (forall e, In e rows <-> In e (queue db) /\ Queue.status e = status)
      /\ QueueService_findAll db = (Ok all, db)
      /\ Permutation all (queue db)
      /\ StronglySorted listedBefore all
      /\ QueueController_findAll None db = (Ok all, db)
      /\ (status <> "" -> QueueController_findAll (Some status) db = (Ok rows, db)).
Proof.
  intros status db. eexists; eexists.
  split; [reflexivity|].
  split; [apply orderBy_perm|].
  split; [apply orderBy_sorted|].
  split.
  { intros e. split.
    - intros H. apply (Permutation_in _ (orderBy_perm _)) in H.
      apply filter_In in H. destruct H as [Hin Hs]. split; [exact Hin|].
      now apply String.eqb_eq.
    - intros [Hin Hs]. apply (Permutation_in _ (Permutation_sym (orderBy_perm _))).
      apply filter_In. split; [exact Hin|]. now apply String.eqb_eq. }
  split; [reflexivity|].
  split; [rewrite filter_whereAll; apply orderBy_perm|].
  split; [apply orderBy_sorted|].
  split; [reflexivity|].
  intros Hne. unfold QueueController_findAll, catchAs.
  destruct status as [|c s]; [contradiction | reflexivity].
Qed.

(** X8. The entry getNextPatient selects is waiting, and no waiting entry
    beats it in the query's order: if the selected entry is an emergency then
    no urgent or normal entry is waiting, if it is normal then no urgent entry
    is waiting, and among the waiting entries of its own priority it has the
    lowest queue number. *)
Theorem getNextPatient_selection_order :
  forall (db : Db) (a : Queue.t),
    fst (QueueService.getNextPatient db) = Ok (Some a) ->
    In a (queue db)
    /\ Queue.status a = "waiting"
    /\ forall b,
         In b (queue db) ->
         Queue.status b = "waiting" ->
         (Queue.priority a = "emergency" ->
          Queue.priority b <> "urgent" /\ Queue.priority b <> "normal")
         /\ (Queue.priority a = "normal" -> Queue.priority b <> "urgent")
         /\ (Queue.priority b = Queue.priority a ->
             Queue.queueNumber a <= Queue.queueNumber b).
Proof.
  intros db a Hnext.
  pose proof (getNextPatient_first db) as Hfirst.
  destruct (QueueService.getNextPatient db) as [[[x|]|err] db'];
    simpl in Hnext; try discriminate.
  inversion Hnext; subst x; clear Hnext.
  destruct Hfirst as (_ & Hin & Hst & Hall).
  split; [exact Hin|]. split; [exact Hst|].
  intros b Hb Hsb.
  destruct (listedBefore_priorities a b (Hall b Hb Hsb)) as (Htie & Hem & Hno).
  repeat split.
  - intros Hu. apply (Hem H). now left.
  - intros Hn. apply (Hem H). now right.
  - intros Ha Hu. now apply Hno.
  - intros Heq. apply Htie. now symmetry.
Qed.

Lemma getNextPatient_selection_order_witness :
  fst (QueueService.getNextPatient emergencyOnlyDb)
  = Ok (Some (Queue.mk 2 0 2 "waiting" "emergency" 2000))
  /\ In (Queue.mk 2 0 2 "waiting" "emergency" 2000) (queue emergencyOnlyDb).
Proof.
  split; [reflexivity|].
  exact (proj1 (getNextPatient_selection_order emergencyOnlyDb
                  (Queue.mk 2 0 2 "waiting" "emergency" 2000) eq_refl)).
Defined.

(** ** X9 and X10: figures that must add up *)

Lemma count_nonneg (where_ : Queue.t -> bool) (db : Db) : 0 <= countWhere where_ db.
Proof.
  unfold countWhere. lia.
Qed.

Lemma status_counts_disjoint (l : list Queue.t) :
  (List.length (filter (whereStatus "waiting") l)
   + List.length (filter (whereStatus "with_doctor") l)
   + List.length (filter (whereStatus "completed") l)
   <= List.length l)%nat.
Proof.
  unfold whereStatus.
  induction l as [|a l IH]; simpl; [lia|].
  destruct (String.eqb_spec (Queue.status a) "waiting") as [Heq|_];
    [rewrite Heq; simpl; lia|].
  destruct (String.eqb_spec (Queue.status a) "with_doctor") as [Heq|_];
    [rewrite Heq; simpl; lia|].
  destruct (String.eqb (Queue.status a) "completed"); simpl; lia.
Qed.

Lemma priority_counts_within_waiting (l : list Queue.t) :
  (List.length (filter (wherePriorityStatus "normal" "waiting") l)
   + List.length (filter (wherePriorityStatus "urgent" "waiting") l)
   + List.length (filter (wherePriorityStatus "emergency" "waiting") l)
   <= List.length (filter (whereStatus "waiting") l))%nat.
Proof.
  unfold wherePriorityStatus, whereStatus.
  induction l as [|a l IH]; simpl; [lia|].
  destruct (String.eqb (Queue.status a) "waiting"); simpl.
  - rewrite !andb_true_r.
    destruct (String.eqb_spec (Queue.priority a) "normal") as [Heq|_];
      [rewrite Heq; simpl; lia|].
    destruct (String.eqb_spec (Queue.priority a) "urgent") as [Heq|_];
      [rewrite Heq; simpl; lia|].
    destruct (String.eqb (Queue.priority a) "emergency"); simpl; lia.
  - rewrite !andb_false_r. lia.
Qed.

(** X9. getQueueStats changes nothing and its counts are consistent: none is
    negative, waiting, withDoctor and completed together do not exceed total,
    the urgent and emergency figures count waiting entries only and together
    do not exceed waiting, and averageWaitTime is the rendering of fifteen
    minutes per waiting entry. *)
Theorem getQueueStats_counts_consistent :
  forall db : Db,
    exists st,
      QueueService.getQueueStats db = (Ok st, db)
      /\ 0 <= QueueService.waiting st
      /\ 0 <= QueueService.withDoctor st
      /\ 0 <= QueueService.completed st
      /\ QueueService.waiting st + QueueService.withDoctor st + QueueService.completed st
         <= QueueService.total st
      /\ 0 <= QueueService.urgent st
      /\ 0 <= QueueService.emergency st
      /\ QueueService.urgent st + QueueService.emergency st <= QueueService.waiting st
      /\ QueueService.averageWaitTime st
         = QueueService.calculateWaitTime (QueueService.waiting st).
Proof.
  intros db. eexists. split; [reflexivity|].
  cbn [QueueService.waiting QueueService.withDoctor QueueService.completed
       QueueService.total QueueService.urgent QueueService.emergency
       QueueService.averageWaitTime].
  pose proof (status_counts_disjoint (queue db)) as Hs.
  pose proof (priority_counts_within_waiting (queue db)) as Hp.
  rewrite filter_whereAll.
  repeat split; try lia.
Qed.

Lemma enhance_filter_length (f : Queue.t -> bool) (now : Z) (l : list Queue.t) :
  forall index0 : Z,
    List.length (filter (fun q => f (QueueService.entry q))
                        (QueueService.enhance now index0 l))
    = List.length (filter f l).
Proof.
  induction l as [|e l IH]; intros index0; simpl; [reflexivity|].
  destruct (f e); simpl; now rewrite IH.
Qed.

Lemma filter_filter_and {A : Type} (f g : A -> bool) (l : list A) :
  filter f (filter g l) = filter (fun x => f x && g x) l.
Proof.
  induction l as [|a l IH]; simpl; [reflexivity|].
  destruct (g a); simpl; rewrite ?andb_true_r, ?andb_false_r;
    [destruct (f a); now rewrite IH | exact IH].
Qed.

(** X10. GET /queue/summary changes nothing and agrees with GET /queue/stats
    on the same database: totalWaiting and totalRecords are both the waiting
    count of the statistics, emergencyCases and urgentCases are their
    emergency and urgent figures; with nobody waiting the longest wait is
    reported as 0m. *)
Theorem getQueueSummary_agrees_with_stats :
  forall (now now' : Z) (db : Db),
    exists summary st,
      QueueController_getQueueSummary now now' db = (Ok summary, db)
      /\ QueueService.getQueueStats db = (Ok st, db)
      /\ totalWaiting summary = QueueService.waiting st
      /\ totalRecords summary = QueueService.waiting st
      /\ emergencyCases summary = QueueService.emergency st
      /\ urgentCases summary = QueueService.urgent st
      /\ (QueueService.waiting st = 0 -> longestWait summary = "0m").
Proof.
  intros now now' db. eexists; eexists.
  split; [reflexivity|]. split; [reflexivity|].
  cbn [totalWaiting totalRecords emergencyCases urgentCases longestWait
       QueueService.waiting QueueService.emergency QueueService.urgent].
  set (waitingRows := filter (whereStatus "waiting") (queue db)).
  assert (Hcount : forall f,
             List.length (filter (fun q => f (QueueService.entry q))
                            (QueueService.enhance now 0
                               (QueueRepository.orderBy waitingRows)))
             = List.length (filter f waitingRows)).
  { intros f. rewrite enhance_filter_length.
    apply perm_filter_length, orderBy_perm. }
  split.
  { rewrite (Hcount (fun e => String.eqb (Queue.status e) "waiting")).
    unfold waitingRows. rewrite filter_filter_and.
    f_equal. f_equal. apply filter_ext. intros a. unfold whereStatus.
    now rewrite andb_diag. }
  split.
  { f_equal.
    rewrite <- (length_map QueueService.entry), enhance_entries.
    apply Permutation_length, orderBy_perm. }
  split.
  { rewrite (Hcount (fun e => String.eqb (Queue.priority e) "emergency")).
    unfold waitingRows. rewrite filter_filter_and. reflexivity. }
  split.
  { rewrite (Hcount (fun e => String.eqb (Queue.priority e) "urgent")).
    unfold waitingRows. rewrite filter_filter_and. reflexivity. }
  intros Hzero.
  assert (Hnil : waitingRows = []).
  { destruct waitingRows; [reflexivity | simpl in Hzero; lia]. }
  rewrite Hnil. reflexivity.
Qed.

(** ** X11 and X12: failures *)

Lemma find_in_not_none (l : list Queue.t) (e : Queue.t) :
  In e l -> List.find (whereId (Queue.id e)) l <> None.
Proof.
  intros Hin Hnone. pose proof (find_none _ _ Hnone e Hin) as H.
  unfold whereId in H. now rewrite Z.eqb_refl in H.
Qed.

(** X11. A queue service call that throws has written nothing: whenever
    addToQueue, addEmergencyPatient, updateStatus, updatePriority or
    removeFromQueue ends in an exception the database is the one it started
    from; callNextPatient never throws at all. *)
Theorem queue_failures_change_nothing :
  forall (now patientId queueId : Z) (priority notes : option string)
         (status priority' : string) (db : Db),
    (match QueueService.addToQueue now patientId priority notes db with
     | (Throw _, db') => db' = db
     | (Ok _, _) => True
     end)
    /\ (match QueueService.addEmergencyPatient now patientId db with
        | (Throw _, db') => db' = db
        | (Ok _, _) => True
        end)
    /\ (match QueueService.updateStatus queueId status db with
        | (Throw _, db') => db' = db
        | (Ok _, _) => True
        end)
    /\ (match QueueService.updatePriority queueId priority' db with
        | (Throw _, db') => db' = db
        | (Ok _, _) => True
        end)
    /\ (match QueueService.removeFromQueue queueId db with
        | (Throw _, db') => db' = db
        | (Ok _, _) => True
        end)
    /\ (match QueueService_callNextPatient db with
        | (Throw _, _) => False
        | (Ok _, _) => True
        end).
Proof.
  intros now patientId queueId priority notes status priority' db.
  repeat split.
  - unfold QueueService.addToQueue, bind, PatientRepository.findOne,
      QueueRepository.findOne, throw.
    destruct (List.find _ (patients db)); [|reflexivity].
    destruct (List.find _ (queue db)); [reflexivity|].
    destruct (String.eqb _ "emergency"); exact I.
  - unfold QueueService.addEmergencyPatient, bind, PatientRepository.findOne,
      QueueRepository.findOne, throw.
    destruct (List.find _ (patients db)); [|reflexivity].
    destruct (List.find _ (queue db)); exact I.
  - unfold QueueService.updateStatus, bind, QueueRepository.findOne, throw.
    destruct (negb _); [reflexivity|].
    destruct (List.find _ (queue db)); [exact I | reflexivity].
  - unfold QueueService.updatePriority, bind, QueueRepository.findOne, throw.
    destruct (negb _); [reflexivity|].
    destruct (List.find _ (queue db)) as [e|]; [|reflexivity].
    destruct (String.eqb priority' "emergency"); [exact I|].
    destruct (String.eqb priority' "urgent" && _); exact I.
  - unfold QueueService.removeFromQueue, bind, QueueRepository.findOne, throw.
    destruct (List.find _ (queue db)); [exact I | reflexivity].
  - pose proof (getNextPatient_first db) as Hfirst.
    unfold QueueService_callNextPatient. unfold bind at 1.
    destruct (QueueService.getNextPatient db) as [[[a|]|err] db'];
      [|exact I|contradiction].
    destruct Hfirst as (-> & Hin & _).
    unfold bind at 1.
    unfold QueueService.updateStatus, bind, QueueRepository.findOne.
    cbn [JS.includes QueueService.validStatuses existsb String.eqb Ascii.eqb Bool.eqb
         orb negb].
    destruct (List.find (whereId (Queue.id a)) (queue db)) eqn:Hfind; [exact I|].
    exact (find_in_not_none _ _ Hin Hfind).
Qed.

(** X12. The queue handlers that write answer a missing record with 400,
    not 404: for an id that is not in the table the service's updateStatus,
    updatePriority and removeFromQueue throw NotFound and the handlers turn
    it into BadRequest, and likewise for addToQueue and addEmergencyPatient
    on a patient that does not exist; nothing is written. *)
Theorem queue_handlers_report_missing_as_bad_request :
  forall (now queueId patientId : Z) (priority notes : option string) (db : Db),
    List.find (whereId queueId) (queue db) = None ->
    List.find (fun p => Patient.id p =? patientId) (patients db) = None ->
    QueueService.removeFromQueue queueId db = (Throw NotFound, db)
    /\ QueueController_removeFromQueue queueId db = (Throw BadRequest, db)
    /\ QueueService.updateStatus queueId "completed" db = (Throw NotFound, db)
    /\ QueueController.updateStatus queueId (Some "completed") db = (Throw BadRequest, db)
    /\ QueueService.updatePriority queueId "urgent" db = (Throw NotFound, db)
    /\ QueueController_updatePriority queueId (Some "urgent") db = (Throw BadRequest, db)
    /\ QueueService.addToQueue now patientId priority notes db = (Throw NotFound, db)
    /\ QueueController.addToQueue now
         (QueueController.mkAddToQueueDto (Some patientId) priority notes) db
       = (Throw BadRequest, db)
    /\ QueueService.addEmergencyPatient now patientId db = (Throw NotFound, db)
    /\ QueueController_addEmergencyPatient now (Some patientId) db
       = (Throw BadRequest, db).
Proof.
  intros now queueId patientId priority notes db Hrow Hpatient.
  assert (Hremove : QueueService.removeFromQueue queueId db = (Throw NotFound, db)).
  { unfold QueueService.removeFromQueue, bind, QueueRepository.findOne.
    now rewrite Hrow. }
  assert (Hstatus : QueueService.updateStatus queueId "completed" db = (Throw NotFound, db)).
  { unfold QueueService.updateStatus, bind, QueueRepository.findOne.
    cbn [JS.includes QueueService.validStatuses existsb String.eqb Ascii.eqb Bool.eqb
         orb negb].
    now rewrite Hrow. }
  assert (Hpriority : QueueService.updatePriority queueId "urgent" db = (Throw NotFound, db)).
  { unfold QueueService.updatePriority, bind, QueueRepository.findOne.
    cbn [JS.includes QueueService.validPriorities existsb String.eqb Ascii.eqb Bool.eqb
         orb negb].
    now rewrite Hrow. }
  assert (Hadd : forall pr, QueueService.addToQueue now patientId pr notes db
                            = (Throw NotFound, db)).
  { intros pr. unfold QueueService.addToQueue, bind, PatientRepository.findOne.
    now rewrite Hpatient. }
  assert (Hem : QueueService.addEmergencyPatient now patientId db = (Throw NotFound, db)).
  { unfold QueueService.addEmergencyPatient, bind, PatientRepository.findOne.
    now rewrite Hpatient. }
  split; [exact Hremove|].
  split; [unfold QueueController_removeFromQueue, catchAs; now rewrite Hremove|].
  split; [exact Hstatus|].
  split.
  { unfold QueueController.updateStatus, catchAs.
    cbn [JS.truthy JS.or JS.includes existsb String.eqb Ascii.eqb Bool.eqb orb negb].
    unfold bind. now rewrite Hstatus. }
  split; [exact Hpriority|].
  split.
  { unfold QueueController_updatePriority, catchAs.
    cbn [JS.truthy JS.or JS.includes existsb String.eqb Ascii.eqb Bool.eqb orb negb].
    now rewrite Hpriority. }
  split; [apply Hadd|].
  split.
  { unfold QueueController.addToQueue, catchAs.
    cbn [QueueController.dto_patientId QueueController.dto_priority
         QueueController.dto_notes].
    destruct ((patientId =? 0) || (patientId <=? 0)); [reflexivity|].
    destruct (JS.truthy priority && _); [reflexivity|].
    unfold bind. now rewrite Hadd. }
  split; [exact Hem|].
  unfold QueueController_addEmergencyPatient, catchAs.
  destruct ((patientId =? 0) || (patientId <=? 0)); [reflexivity|].
  unfold bind.
  unfold QueueService_addEmergencyPatient_entity, bind, PatientRepository.findOne.
  now rewrite Hpatient.
Qed.

Lemma queue_handlers_report_missing_as_bad_request_witness :
  List.find (whereId 9) (queue triageDb) = None
  /\ List.find (fun p => Patient.id p =? 9) (patients triageDb) = None
  /\ QueueController_removeFromQueue 9 triageDb = (Throw BadRequest, triageDb).
Proof.
  split; [reflexivity|]. split; [reflexivity|].
  exact (proj1 (proj2 (queue_handlers_report_missing_as_bad_request
                         0 9 9 None None triageDb eq_refl eq_refl))).
Defined.

(** ** X13 and X14: emergency admission *)

Lemma wherePatientStatus_true (patientId : Z) (status : string) (e : Queue.t) :
  wherePatientStatus patientId status e = true ->
  Queue.patientId e = patientId /\ Queue.status e = status.
Proof.
  unfold wherePatientStatus. intros H. apply andb_true_iff in H.
  destruct H as [Hp Hs]. split; [now apply Z.eqb_eq | now apply String.eqb_eq].
Qed.

(** X13. On a well-formed table, addEmergencyPatient for a patient that
    exists always succeeds, and the entry it returns is stored in the table,
    belongs to that patient and is waiting with priority emergency and queue
    number 0; the table grows by at most one row.  For a patient that does
    not exist it throws NotFound. *)
Theorem addEmergencyPatient_always_admits :
  forall (now patientId : Z) (db : Db),
    wf db ->
    match List.find (fun p => Patient.id p =? patientId) (patients db) with
    | Some _ =>
        exists e db',
          QueueService.addEmergencyPatient now patientId db = (Ok (Some e), db')
          /\ In e (queue db')
          /\ Queue.patientId e = patientId
          /\ Queue.status e = "waiting"
          /\ Queue.priority e = "emergency"
          /\ Queue.queueNumber e = 0
          /\ (List.length (queue db') <= List.length (queue db) + 1)%nat
    | None => QueueService.addEmergencyPatient now patientId db = (Throw NotFound, db)
    end.
Proof.
  intros now patientId db [Hnd Hlt].
  destruct (List.find (fun p => Patient.id p =? patientId) (patients db)) as [p|] eqn:Hp.
  2:{ unfold QueueService.addEmergencyPatient, bind, PatientRepository.findOne.
      now rewrite Hp. }
  destruct (List.find (wherePatientStatus patientId "waiting") (queue db))
    as [e0|] eqn:Hw.
  - pose proof (find_some _ _ Hw) as [Hin Hmatch].
    destruct (wherePatientStatus_true _ _ _ Hmatch) as [Hpid Hst].
    eexists; eexists. split; [apply (addEmergencyPatient_existing _ _ _ p e0 Hp Hw)|].
    cbn [setQueue queue].
    destruct (save_in_place (queue db) e0 (promoted e0) Hnd Hin eq_refl)
      as (l1 & l2 & Hq & Hq').
    split; [rewrite Hq'; apply in_or_app; right; now left|].
    split; [exact Hpid|]. split; [exact Hst|]. split; [reflexivity|].
    split; [reflexivity|]. rewrite length_map. lia.
  - eexists; eexists. split.
    { unfold QueueService.addEmergencyPatient, bind, PatientRepository.findOne,
        QueueRepository.findOne.
      rewrite Hp, Hw.
      cbn [QueueRepository.insertRow Queue.id queue].
      rewrite find_app_first, (find_fresh_id _ _ Hlt). simpl.
      unfold whereId. cbn [Queue.id]. rewrite Z.eqb_refl. reflexivity. }
    cbn [queue].
    split; [apply in_or_app; right; now left|].
    repeat split; try reflexivity.
    rewrite length_app. simpl. lia.
Qed.

Lemma addEmergencyPatient_always_admits_witness :
  wf emptyDb
  /\ exists e db',
       QueueService.addEmergencyPatient 10 2 emptyDb = (Ok (Some e), db')
       /\ Queue.priority e = "emergency"
       /\ Queue.queueNumber e = 0.
Proof.
  assert (Hwf : wf emptyDb) by wf_concrete.
  split; [exact Hwf|].
  pose proof (addEmergencyPatient_always_admits 10 2 emptyDb Hwf) as H.
  cbn in H. destruct H as (e & db' & Hrun & _ & _ & _ & Hpr & Hqn & _).
  exists e, db'. repeat split; assumption.
Defined.

(** X14. POST /queue/emergency for an existing patient (positive id,
    well-formed table): when the patient already waits, the entry is promoted
    and the announcement names Unknown Patient, since the promoted entry was
    loaded without its patient; when the patient does not wait yet, a new
    entry is created and the announcement carries the patient's name.  The
    entry and the database are those of the service's addEmergencyPatient. *)
Theorem emergency_announcement_names_patient_only_when_new :
  forall (now patientId : Z) (db : Db) (p : Patient.t),
    wf db ->
    0 < patientId ->
    List.find (fun p => Patient.id p =? patientId) (patients db) = Some p ->
    exists resp db',
      QueueController_addEmergencyPatient now (Some patientId) db = (Ok resp, db')
      /\ QueueService.addEmergencyPatient now patientId db
         = (Ok (Some (emergency_queueEntry resp)), db')
      /\ emergency_queueNumber resp = 0
      /\ emergency_announcement resp
         = "EMERGENCY: Queue number 0, "
           ++ match List.find (wherePatientStatus patientId "waiting") (queue db) with
              | Some _ => "Unknown Patient"
              | None => JS.or (Some (Patient.name p)) "Unknown Patient"
              end
           ++ ", please proceed to emergency consultation room immediately".
Proof.
  intros now patientId db p [Hnd Hlt] Hpos Hp.
  unfold QueueController_addEmergencyPatient, catchAs.
  assert (Hguard : (patientId =? 0) || (patientId <=? 0) = false).
  { apply orb_false_iff. split; [apply Z.eqb_neq | apply Z.leb_gt]; lia. }
  rewrite Hguard. unfold bind at 1.
  unfold QueueService_addEmergencyPatient_entity, QueueService.addEmergencyPatient,
    bind, PatientRepository.findOne, QueueRepository.findOne.
  rewrite Hp.
  destruct (List.find (wherePatientStatus patientId "waiting") (queue db))
    as [e0|] eqn:Hw.
  - eexists; eexists. split; [reflexivity|]. split; [reflexivity|].
    split; reflexivity.
  - cbn [QueueRepository.insertRow Queue.id queue patients ret
         QueueRepository_findOneWithPatient].
    rewrite find_app_first, (find_fresh_id _ _ Hlt).
    unfold whereId. cbn [List.find Queue.id]. rewrite Z.eqb_refl.
    cbn [option_map Queue.patientId entity_row entity_patient Queue.queueNumber].
    rewrite Hp.
    eexists; eexists. split; [reflexivity|]. split; [reflexivity|].
    split; reflexivity.
Qed.

Lemma emergency_announcement_names_patient_only_when_new_witness :
  wf triageDb
  /\ 0 < 1
  /\ exists resp db',
       QueueController_addEmergencyPatient 9000 (Some 1) triageDb = (Ok resp, db')
       /\ emergency_announcement resp
          = "EMERGENCY: Queue number 0, Unknown Patient, please proceed to emergency consultation room immediately".
Proof.
  assert (Hwf : wf triageDb) by wf_concrete.
  assert (Hpos : 0 < 1) by lia.
  split; [exact Hwf|]. split; [exact Hpos|].
  destruct (emergency_announcement_names_patient_only_when_new 9000 1 triageDb alice
              Hwf Hpos eq_refl)
    as (resp & db' & Hrun & _ & _ & Hann).
  exists resp, db'. split; [exact Hrun | exact Hann].
Defined.

(** ** X15: the recommendations of the analytics *)

Lemma peak_hours_of_the_day :
  QueueService_identifyPeakHours QueueService_getHourlyQueueData = ["11AM"; "2PM"; "3PM"].
Proof.
  vm_compute. reflexivity.
Qed.

(** X15. getQueueAnalytics changes nothing; its peak hours are 11AM, 2PM and
    3PM, and its recommendations are, in this order: the staffing advice for
    those hours (always), the emergency-protocol advice exactly when more
    than 3 emergency entries are waiting, and the long-queue advice exactly
    when more than 20 entries of priority normal, urgent or emergency are
    waiting. *)
Theorem getQueueAnalytics_recommendations :
  forall db : Db,
    exists a,
      QueueService_getQueueAnalytics db = (Ok a, db)
      /\ peakHours a = ["11AM"; "2PM"; "3PM"]
      /\ recommendations a
         = (["Consider adding more staff during peak hours: 11AM, 2PM, 3PM"]
            ++ (if 3 <? countWhere (wherePriorityStatus "emergency" "waiting") db
                then ["High emergency case volume - ensure emergency protocols are active"]
                else [])
            ++ (if 20 <? countWhere (wherePriorityStatus "normal" "waiting") db
                         + countWhere (wherePriorityStatus "urgent" "waiting") db
                         + countWhere (wherePriorityStatus "emergency" "waiting") db
                then ["Queue is getting long - consider optimizing patient flow"]
                else []))%list.
Proof.
  intros db. eexists. split; [reflexivity|].
  cbn [peakHours recommendations].
  split; [exact peak_hours_of_the_day|].
  unfold QueueService_generateRecommendations.
  rewrite peak_hours_of_the_day.
  cbn [List.find share_label share_count String.eqb Ascii.eqb Bool.eqb fold_left
       List.length String.concat].
  unfold countWhere.
  replace (0 + Z.of_nat (List.length (filter (wherePriorityStatus "normal" "waiting")
                                             (queue db))))
    with (Z.of_nat (List.length (filter (wherePriorityStatus "normal" "waiting")
                                        (queue db)))) by lia.
  reflexivity.
Qed.

(** ** X16 and X17: rendering of waits *)



Lemma maxWaitMinutes_fold (now : Z) (l : list QueueService.EnhancedEntry) :
  forall acc : Z,
    let step := fun (maxWaitMinutes : Z) (item : QueueService.EnhancedEntry) =>
                  if maxWaitMinutes <? waitMinutes now item then waitMinutes now item
                  else maxWaitMinutes in
    acc <= fold_left step l acc
    /\ (forall item, In item l -> waitMinutes now item <= fold_left step l acc)
    /\ (fold_left step l acc = acc
        \/ exists item, In item l /\ waitMinutes now item = fold_left step l acc).
Proof.
  induction l as [|x l IH]; intros acc step; simpl.
  - split; [lia|]. split; [intros item []|now left].
  - specialize (IH (step acc x)). cbv zeta in IH. fold step in IH.
    destruct IH as (Hle & Hall & Hex).
    assert (Hstep : acc <= step acc x /\ waitMinutes now x <= step acc x
                    /\ (step acc x = acc \/ step acc x = waitMinutes now x)).
    { unfold step. destruct (Z.ltb_spec acc (waitMinutes now x)); lia. }
    destruct Hstep as (H1 & H2 & H3).
    split; [lia|]. split.
    + intros item [<-|Hin]; [lia | now apply Hall].
    + destruct Hex as [Heq|(item & Hin & Heq)].
      * destruct H3 as [H3|H3].
        -- left. lia.
        -- right. exists x. split; [now left | lia].
      * right. exists item. split; [now right | exact Heq].
Qed.

Lemma maxWaitMinutes_spec (now : Z) (l : list QueueService.EnhancedEntry) :
  0 <= maxWaitMinutes now l
  /\ (forall item, In item l -> waitMinutes now item <= maxWaitMinutes now l)
  /\ (maxWaitMinutes now l = 0
      \/ exists item, In item l /\ waitMinutes now item = maxWaitMinutes now l).
Proof.
  exact (maxWaitMinutes_fold now l 0).
Qed.

(** X17. The longest wait of GET /queue/summary is the rendering of the
    largest whole number of minutes any waiting item of the view has been
    queued at the time of the call, and of 0 when there is none or when all
    of them lie in the future: the figure is never negative, no waiting item
    has waited longer, and it is 0 or attained by a waiting item. *)
Theorem calculateLongestWait_is_maximum :
  forall (now : Z) (view : list QueueService.EnhancedEntry),
    let waitingQueue :=
      filter (fun q => String.eqb (Queue.status (QueueService.entry q)) "waiting") view in
    let longest := maxWaitMinutes now waitingQueue in
    0 <= longest
    /\ (forall item, In item waitingQueue -> waitMinutes now item <= longest)
    /\ (longest = 0 \/ exists item, In item waitingQueue /\ waitMinutes now item = longest)
    /\ QueueController_calculateLongestWait now view
       = (if longest <? 60 then JS.toString longest ++ "m"
          else JS.toString (longest / 60) ++ "h " ++ JS.toString (longest mod 60) ++ "m").
Proof.
  intros now view. cbv zeta.
  unfold QueueController_calculateLongestWait.
  remember (filter (fun q => String.eqb (Queue.status (QueueService.entry q)) "waiting")
                   view) as waitingQueue eqn:Hwq.
  destruct (maxWaitMinutes_spec now waitingQueue) as (Hle & Hall & Hex).
  remember (maxWaitMinutes now waitingQueue) as longest eqn:Hlongest.
  split; [exact Hle|]. split; [exact Hall|]. split; [exact Hex|].
  destruct view as [|q view'].
  - simpl in Hwq. subst waitingQueue. subst longest. reflexivity.
  - destruct waitingQueue as [|w waitingQueue'].
    + subst longest. reflexivity.
    + rewrite Z.rem_mod_nonneg by lia. reflexivity.
Qed.

(** ** X18 to X21: appointments *)

Section AppointmentProperties.

Variable parseDate : string -> option Z.

(** What a successful POST /appointments has checked and stored. *)
Lemma create_inversion (now : Z) (body : CreateAppointmentDto) (db db1 : Db)
  (a : Appointment.t) :
  AppointmentController_create parseDate now body db = (Ok a, db1) ->
  exists doctorId' patientId' text date doctor patient,
    doctorId body = Some doctorId'
    /\ patientId body = Some patientId'
    /\ appointmentDateTime body = Some text
    /\ List.find (fun d => Doctor.id d =? doctorId') (doctors db) = Some doctor
    /\ Doctor.isActive doctor = true
    /\ List.find (fun p => Patient.id p =? patientId') (patients db) = Some patient
    /\ parseDate text = Some date
    /\ List.find
         (fun x =>
            (Appointment.doctorId x =? doctorId')
            && (Appointment.appointmentDateTime x =? date)
            && String.eqb (Appointment.status x) "scheduled")
         (appointments db) = None
    /\ a = Appointment.mk (appointmentSeq db) doctorId' patientId' date
             (JS.or (assign (status body) (Some "booked")) "scheduled")
             (notes body) now
    /\ db1 = mkDb (patients db) (doctors db) (queue db) (queueSeq db)
               (appointments db ++ [a]) (appointmentSeq db + 1).
Proof.
  intros Hrun.
  unfold AppointmentController_create, plainToInstance in Hrun.
  cbn [doctorId patientId appointmentDateTime notes status newCreateAppointmentDto]
    in Hrun.
  destruct (doctorId body) as [d|]; [|discriminate].
  destruct (patientId body) as [p|]; [|discriminate].
  destruct (appointmentDateTime body) as [text|]; [|discriminate].
  cbn [assign] in Hrun.
  destruct (d =? 0); [discriminate|].
  destruct (p =? 0); [discriminate|].
  destruct (String.eqb text ""); [discriminate|].
  unfold AppointmentService_create, bind, DoctorRepository.findOne,
    PatientRepository.findOne, AppointmentRepository.findOneBySlot, throw in Hrun.
  destruct ((d =? 0) || (d <=? 0)); [discriminate|].
  destruct (List.find _ (doctors db)) as [doctor|] eqn:Hdoc; [|discriminate].
  destruct (Doctor.isActive doctor) eqn:Hact; [|discriminate].
  cbn [negb] in Hrun.
  destruct (List.find _ (patients db)) as [patient|] eqn:Hpat; [|discriminate].
  destruct (parseDate text) as [date|] eqn:Hdate; [|discriminate].
  destruct (List.find _ (appointments db)) as [x|] eqn:Hslot; [discriminate|].
  cbn in Hrun. inversion Hrun; subst; clear Hrun.
  exists d, p, text, date, doctor, patient.
  destruct (notes body); repeat split; assumption || reflexivity.
Qed.

Lemma create_appends_row :
  forall (now : Z) (body : CreateAppointmentDto) (db db1 : Db) (a : Appointment.t),
    AppointmentController_create parseDate now body db = (Ok a, db1) ->
    Appointment.id a = appointmentSeq db
    /\ appointments db1 = (appointments db ++ [a])%list
    /\ appointmentSeq db1 = appointmentSeq db + 1
    /\ Appointment.status a
       = match status body with
         | None => "booked"
         | Some "" => "scheduled"
         | Some s => s
         end
    /\ forall x,
         In x (appointments db) ->
         Appointment.doctorId x = Appointment.doctorId a ->
         Appointment.appointmentDateTime x = Appointment.appointmentDateTime a ->
         Appointment.status x <> "scheduled".
Proof.
  intros now body db db1 a Hrun.
  destruct (create_inversion _ _ _ _ _ Hrun)
    as (d & p & text & date & doctor & patient & _ & _ & _ & _ & _ & _ & _
        & Hslot & -> & ->).
  cbn [Appointment.id Appointment.status Appointment.doctorId
       Appointment.appointmentDateTime appointments appointmentSeq].
  split; [reflexivity|]. split; [reflexivity|]. split; [reflexivity|].
  split.
  { destruct (status body) as [[|c s]|]; reflexivity. }
  intros x Hx Hd Ht Hs.
  pose proof (find_none _ _ Hslot x Hx) as Hno. cbn beta in Hno.
  rewrite Hd, Ht, Hs, !Z.eqb_refl in Hno. discriminate.
Qed.

(** X18. An appointment that POST /appointments creates gets the id of the
    counter and is appended to the table; its status is the one of the
    request, booked when the request has none and scheduled when the request
    gives the empty text; and no appointment that was in the table has the
    same doctor, the same instant and the status scheduled. *)
Theorem create_respects_scheduled_slots :
  forall (now : Z) (body : CreateAppointmentDto) (db db1 : Db) (a : Appointment.t),
    AppointmentController_create parseDate now body db = (Ok a, db1) ->
    Appointment.id a = appointmentSeq db
    /\ appointments db1 = (appointments db ++ [a])%list
    /\ appointmentSeq db1 = appointmentSeq db + 1
    /\ Appointment.status a
       = match status body with
         | None => "booked"
         | Some "" => "scheduled"
         | Some s => s
         end
    /\ forall x,
         In x (appointments db) ->
         Appointment.doctorId x = Appointment.doctorId a ->
         Appointment.appointmentDateTime x = Appointment.appointmentDateTime a ->
         Appointment.status x <> "scheduled".
Proof.
  exact create_appends_row.
Qed.

Lemma scheduled_slot_blocks (now : Z) (body : CreateAppointmentDto) (db : Db)
  (x : Appointment.t) (text : string) :
  In x (appointments db) ->
  Appointment.status x = "scheduled" ->
  doctorId body = Some (Appointment.doctorId x) ->
  appointmentDateTime body = Some text ->
  parseDate text = Some (Appointment.appointmentDateTime x) ->
  exists e, AppointmentController_create parseDate now body db = (Throw e, db).
Proof.
  intros Hx Hs Hd Ht Hparse.
  destruct (AppointmentController_create parseDate now body db) as [[a|e] db1] eqn:Hrun.
  - exfalso.
    destruct (create_inversion _ _ _ _ _ Hrun)
      as (d & p & text' & date & doctor & patient & Hd' & _ & Ht' & _ & _ & _ & Hdate
          & Hslot & _ & _).
    assert (d = Appointment.doctorId x) by congruence.
    assert (text' = text) by congruence. subst d text'.
    assert (date = Appointment.appointmentDateTime x) by congruence. subst date.
    pose proof (find_none _ _ Hslot x Hx) as Hno. cbn beta in Hno.
    rewrite Hs, !Z.eqb_refl in Hno. discriminate.
  - exists e. f_equal.
    unfold AppointmentController_create in Hrun.
    destruct (doctorId (plainToInstance body)); [|now inversion Hrun].
    destruct (patientId (plainToInstance body)); [|now inversion Hrun].
    destruct (appointmentDateTime (plainToInstance body)); [|now inversion Hrun].
    destruct (z =? 0); [now inversion Hrun|].
    destruct (z0 =? 0); [now inversion Hrun|].
    destruct (String.eqb s ""); [now inversion Hrun|].
    unfold AppointmentService_create, bind, DoctorRepository.findOne,
      PatientRepository.findOne, AppointmentRepository.findOneBySlot, throw in Hrun.
    destruct ((z =? 0) || (z <=? 0)); [now inversion Hrun|].
    destruct (List.find _ (doctors db)) as [doctor|]; [|now inversion Hrun].
    destruct (negb (Doctor.isActive doctor)); [now inversion Hrun|].
    destruct (List.find _ (patients db)); [|now inversion Hrun].
    destruct (parseDate s); [|now inversion Hrun].
    destruct (List.find _ (appointments db)); [now inversion Hrun|].
    cbn in Hrun. inversion Hrun.
Qed.

(** X19. A request that names the status scheduled does block its slot:
    after it has succeeded, a second request for the same doctor and the same
    date-time text, which would have succeeded on the database before, is
    refused with BadRequest and nothing is written. *)
Theorem create_scheduled_blocks_second :
  forall (now1 now2 : Z) (body1 body2 : CreateAppointmentDto) (db db1 db2' : Db)
         (a1 a2' : Appointment.t),
    status body1 = Some "scheduled" ->
    doctorId body1 = doctorId body2 ->
    appointmentDateTime body1 = appointmentDateTime body2 ->
    AppointmentController_create parseDate now1 body1 db = (Ok a1, db1) ->
    AppointmentController_create parseDate now2 body2 db = (Ok a2', db2') ->
    AppointmentController_create parseDate now2 body2 db1 = (Throw BadRequest, db1).
Proof.
  intros now1 now2 body1 body2 db db1 db2' a1 a2' Hs1 Hdoc Htime Hrun1 Hrun2.
  destruct (create_inversion _ _ _ _ _ Hrun1)
    as (d1 & p1 & t1 & date1 & doc1 & pat1 & Hd1 & Hp1 & Ht1 & Hfd1 & Hact1 & Hfp1
        & Hparse1 & Hslot1 & Ha1 & Hdb1).
  destruct (create_inversion _ _ _ _ _ Hrun2)
    as (d2 & p2 & t2 & date2 & doc2 & pat2 & Hd2 & Hp2 & Ht2 & Hfd2 & Hact2 & Hfp2
        & Hparse2 & Hslot2 & Ha2 & Hdb2).
  assert (d2 = d1) by congruence. assert (t2 = t1) by congruence. subst d2 t2.
  assert (date2 = date1) by congruence. subst date2.
  clear Ha2 Hdb2.
  unfold AppointmentController_create, plainToInstance in Hrun2 |- *.
  cbn [doctorId patientId appointmentDateTime notes status newCreateAppointmentDto]
    in Hrun2 |- *.
  rewrite Hd2, Hp2, Ht2 in Hrun2 |- *. cbn [assign] in Hrun2 |- *.
  destruct (d1 =? 0); [discriminate|].
  destruct (p2 =? 0); [discriminate|].
  destruct (String.eqb t1 ""); [discriminate|].
  unfold AppointmentService_create, bind, DoctorRepository.findOne,
    PatientRepository.findOne, AppointmentRepository.findOneBySlot, throw in Hrun2 |- *.
  destruct ((d1 =? 0) || (d1 <=? 0)); [discriminate|].
  subst db1. cbn [doctors].
  rewrite Hfd2. cbn [patients]. rewrite Hact2. cbn [negb patients].
  rewrite Hfp2, Hparse1. cbn [appointments].
  rewrite find_app_first, Hslot1. subst a1. rewrite Hs1.
  cbn [List.find Appointment.status Appointment.doctorId Appointment.appointmentDateTime
       assign JS.or].
  rewrite !Z.eqb_refl. cbn [andb String.eqb Ascii.eqb Bool.eqb].
  reflexivity.
Qed.

End AppointmentProperties.

Lemma create_respects_scheduled_slots_witness :
  AppointmentController_create sampleParseDate 100 (bookingFor 1) clinicDb
  = (Ok (Appointment.mk 1 4 1 1714557600000 "booked" None 100),
     snd (AppointmentController_create sampleParseDate 100 (bookingFor 1) clinicDb))
  /\ appointmentSeq
       (snd (AppointmentController_create sampleParseDate 100 (bookingFor 1) clinicDb))
     = 2.
Proof.
  split; [reflexivity|].
  destruct (create_respects_scheduled_slots sampleParseDate 100 (bookingFor 1) clinicDb
              (snd (AppointmentController_create sampleParseDate 100 (bookingFor 1)
                      clinicDb))
              (Appointment.mk 1 4 1 1714557600000 "booked" None 100) eq_refl)
    as (_ & _ & Hseq & _).
  exact Hseq.
Defined.

Lemma create_scheduled_blocks_second_witness :
  AppointmentController_create sampleParseDate 200 (bookingFor 2)
    (snd (AppointmentController_create sampleParseDate 100 (scheduledBookingFor 1)
            clinicDb))
  = (Throw BadRequest,
     snd (AppointmentController_create sampleParseDate 100 (scheduledBookingFor 1)
            clinicDb)).
Proof.
  exact (create_scheduled_blocks_second sampleParseDate 100 200
           (scheduledBookingFor 1) (bookingFor 2) clinicDb
           (snd (AppointmentController_create sampleParseDate 100 (scheduledBookingFor 1)
                   clinicDb))
           (snd (AppointmentController_create sampleParseDate 200 (bookingFor 2) clinicDb))
           (Appointment.mk 1 4 1 1714557600000 "scheduled" None 100)
           (Appointment.mk 1 4 2 1714557600000 "booked" None 200)
           eq_refl eq_refl eq_refl eq_refl eq_refl).
Defined.

Lemma find_fresh_appointment (l : list Appointment.t) (n : Z) :
  Forall (fun a => Appointment.id a < n) l ->
  List.find (whereAppointmentId n) l = None
  /\ filter (fun r => negb (Appointment.id r =? n)) l = l.
Proof.
  induction 1 as [|r l Hr _ [IH1 IH2]]; simpl; [split; reflexivity|].
  unfold whereAppointmentId at 1.
  destruct (Z.eqb_spec (Appointment.id r) n); [lia|].
  simpl. split; [exact IH1 | now rewrite IH2].
Qed.

Lemma find_appointment_replace (id : Z) (l : list Appointment.t) (a a' : Appointment.t) :
  List.find (whereAppointmentId id) l = Some a ->
  Appointment.id a' = id ->
  List.find (whereAppointmentId id)
    (map (fun r => if Appointment.id r =? Appointment.id a' then a' else r) l)
  = Some a'.
Proof.
  intros Hfind Ha'. rewrite Ha'.
  induction l as [|r l IH]; simpl in *; [discriminate|].
  unfold whereAppointmentId at 1 in Hfind.
  destruct (Z.eqb_spec (Appointment.id r) id) as [Heq|Hne].
  - unfold whereAppointmentId. now rewrite Ha', Z.eqb_refl.
  - unfold whereAppointmentId at 1.
    destruct (Z.eqb_spec (Appointment.id r) id); [contradiction|].
    apply IH, Hfind.
Qed.

Section AppointmentLifecycle.

Variable parseDate : string -> option Z.

(** X20. On a table whose ids all come from the counter, an appointment
    that POST /appointments has just created is found under its id, by the
    service and by GET /appointments/:id; removing it gives back the table as
    it was before the creation, after which the lookup is NotFound and a
    second DELETE is answered with BadRequest. *)
Theorem create_findOne_remove_roundtrip :
  forall (now : Z) (body : CreateAppointmentDto) (db db1 : Db) (a : Appointment.t),
    wfAppointments db ->
    AppointmentController_create parseDate now body db = (Ok a, db1) ->
    AppointmentService_findOne (Appointment.id a) db1 = (Ok a, db1)
    /\ AppointmentController_findOne (Appointment.id a) db1 = (Ok a, db1)
    /\ exists db2,
         AppointmentService_remove (Appointment.id a) db1 = (Ok tt, db2)
         /\ appointments db2 = appointments db
         /\ AppointmentService_findOne (Appointment.id a) db2 = (Throw NotFound, db2)
         /\ AppointmentController_findOne (Appointment.id a) db2 = (Throw NotFound, db2)
         /\ AppointmentController_remove (Appointment.id a) db2 = (Throw BadRequest, db2).
Proof.
  intros now body db db1 a [_ Hlt] Hrun.
  destruct (create_appends_row parseDate _ _ _ _ _ Hrun)
    as (Hid & Happs & _).
  destruct (find_fresh_appointment _ _ Hlt) as [Hfresh Hkeep].
  assert (Hfind : List.find (whereAppointmentId (Appointment.id a)) (appointments db1)
                  = Some a).
  { rewrite Happs, find_app_first, Hid, Hfresh. simpl.
    unfold whereAppointmentId. now rewrite Hid, Z.eqb_refl. }
  assert (Hone : AppointmentService_findOne (Appointment.id a) db1 = (Ok a, db1)).
  { unfold AppointmentService_findOne, bind, AppointmentRepository_findOne.
    now rewrite Hfind. }
  split; [exact Hone|].
  split; [unfold AppointmentController_findOne, catchAs; now rewrite Hone|].
  eexists. split.
  { unfold AppointmentService_remove, bind, AppointmentRepository_findOne.
    rewrite Hfind. reflexivity. }
  cbn [setAppointments appointments].
  assert (Hback : filter (fun r => negb (Appointment.id r =? Appointment.id a))
                         (appointments db1) = appointments db).
  { rewrite Happs, filter_app, Hid, Hkeep. simpl.
    rewrite Hid, Z.eqb_refl. simpl. apply app_nil_r. }
  rewrite Hback.
  assert (Hgone : forall db2,
             appointments db2 = appointments db ->
             AppointmentService_findOne (Appointment.id a) db2 = (Throw NotFound, db2)
             /\ AppointmentService_remove (Appointment.id a) db2 = (Throw NotFound, db2)).
  { intros db2 H2.
    unfold AppointmentService_findOne, AppointmentService_remove, bind,
      AppointmentRepository_findOne.
    rewrite H2, Hid, Hfresh. split; reflexivity. }
  split; [reflexivity|].
  destruct (Hgone (setAppointments db1 (appointments db)) eq_refl) as [Hf Hr].
  split; [exact Hf|].
  split; [unfold AppointmentController_findOne, catchAs; now rewrite Hf|].
  unfold AppointmentController_remove, catchAs. now rewrite Hr.
Qed.

(** X21. updateStatus of the appointment service stores any status text on
    an existing appointment without a check and the lookup then returns the
    updated appointment; for an unknown id it throws NotFound and writes
    nothing.  Once the stored status is scheduled, every POST /appointments
    for that doctor and instant is refused and writes nothing. *)
Theorem appointment_updateStatus_then_blocks :
  forall (id : Z) (status' : string) (db : Db),
    match List.find (whereAppointmentId id) (appointments db) with
    | Some a =>
        exists db',
          AppointmentService_updateStatus id status' db
          = (Ok (withAppointmentStatus a status'), db')
          /\ AppointmentService_findOne id db' = (Ok (withAppointmentStatus a status'), db')
          /\ List.length (appointments db') = List.length (appointments db)
          /\ (status' = "scheduled" ->
              forall now body text,
                doctorId body = Some (Appointment.doctorId a) ->
                appointmentDateTime body = Some text ->
                parseDate text = Some (Appointment.appointmentDateTime a) ->
                exists e,
                  AppointmentController_create parseDate now body db' = (Throw e, db'))
    | None => AppointmentService_updateStatus id status' db = (Throw NotFound, db)
    end.
Proof.
  intros id status' db.
  destruct (List.find (whereAppointmentId id) (appointments db)) as [a|] eqn:Hfind.
  2:{ unfold AppointmentService_updateStatus, AppointmentService_findOne, bind,
        AppointmentRepository_findOne.
      now rewrite Hfind. }
  pose proof (find_some _ _ Hfind) as [Hin Hid].
  unfold whereAppointmentId in Hid. apply Z.eqb_eq in Hid.
  set (a' := withAppointmentStatus a status').
  set (rows' := map (fun r => if Appointment.id r =? Appointment.id a' then a' else r)
                    (appointments db)).
  assert (Hrun : AppointmentService_updateStatus id status' db
                 = (Ok a', setAppointments db rows')).
  { unfold AppointmentService_updateStatus, AppointmentService_findOne, bind,
      AppointmentRepository_findOne.
    rewrite Hfind. reflexivity. }
  assert (Hfind' : List.find (whereAppointmentId id) rows' = Some a').
  { apply (find_appointment_replace id _ a a' Hfind). exact Hid. }
  exists (setAppointments db rows').
  split; [exact Hrun|]. split.
  { unfold AppointmentService_findOne, bind, AppointmentRepository_findOne.
    cbn [setAppointments appointments]. now rewrite Hfind'. }
  split; [apply length_map|].
  intros -> now body text Hd Ht Hparse.
  apply (scheduled_slot_blocks parseDate now body _ a' text);
    [|reflexivity|exact Hd|exact Ht|exact Hparse].
  cbn [setAppointments appointments].
  exact (proj1 (find_some _ _ Hfind')).
Qed.

End AppointmentLifecycle.

Lemma create_findOne_remove_roundtrip_witness :
  wfAppointments clinicDb
  /\ AppointmentService_findOne 1
       (snd (AppointmentController_create sampleParseDate 100 (bookingFor 1) clinicDb))
     = (Ok (Appointment.mk 1 4 1 1714557600000 "booked" None 100),
        snd (AppointmentController_create sampleParseDate 100 (bookingFor 1) clinicDb)).
Proof.
  assert (Hwf : wfAppointments clinicDb) by (split; constructor).
  split; [exact Hwf|].
  exact (proj1 (create_findOne_remove_roundtrip sampleParseDate 100 (bookingFor 1)
                  clinicDb _ (Appointment.mk 1 4 1 1714557600000 "booked" None 100)
                  Hwf eq_refl)).
Defined.

(** ** X22 and X23: appointment statistics and listings *)

Lemma appointment_status_counts (l : list Appointment.t) :
  (List.length (filter (whereAppointmentStatus "scheduled") l)
   + List.length (filter (whereAppointmentStatus "completed") l)
   + List.length (filter (whereAppointmentStatus "cancelled") l)
   <= List.length l)%nat.
Proof.
  unfold whereAppointmentStatus.
  induction l as [|a l IH]; simpl; [lia|].
  destruct (String.eqb_spec (Appointment.status a) "scheduled") as [Heq|_];
    [rewrite Heq; simpl; lia|].
  destruct (String.eqb_spec (Appointment.status a) "completed") as [Heq|_];
    [rewrite Heq; simpl; lia|].
  destruct (String.eqb (Appointment.status a) "cancelled"); simpl; lia.
Qed.

Lemma filter_all_true {A : Type} (l : list A) : filter (fun _ => true) l = l.
Proof.
  induction l as [|a l IH]; simpl; [reflexivity | now rewrite IH].
Qed.

(** X22. getAppointmentStats changes nothing; total is the number of rows of
    the appointment table, the scheduled, completed and cancelled counts are
    non-negative and together do not exceed it (appointments that are booked,
    confirmed or anything else are in none of the three), and the two rates
    are the rounded percentages of completed and cancelled among all rows. *)
Theorem getAppointmentStats_counts_consistent :
  forall db : Db,
    exists st,
      AppointmentService_getAppointmentStats db = (Ok st, db)
      /\ stats_total st = Z.of_nat (List.length (appointments db))
      /\ 0 <= stats_scheduled st
      /\ 0 <= stats_completed st
      /\ 0 <= stats_cancelled st
      /\ stats_scheduled st + stats_completed st + stats_cancelled st <= stats_total st
      /\ completionRate st = QueueService.percentage (stats_completed st) (stats_total st)
      /\ cancellationRate st = QueueService.percentage (stats_cancelled st) (stats_total st).
Proof.
  intros db. eexists. split; [reflexivity|].
  cbn [stats_total stats_scheduled stats_completed stats_cancelled completionRate
       cancellationRate].
  pose proof (appointment_status_counts (appointments db)) as H.
  rewrite filter_all_true.
  repeat split; try lia.
Qed.

Lemma insertByTime_perm (x : Appointment.t) (l : list Appointment.t) :
  Permutation (insertByTime x l) (x :: l).
Proof.
  induction l as [|y l IH]; simpl; [reflexivity|].
  destruct (Appointment.appointmentDateTime x <=? Appointment.appointmentDateTime y);
    [reflexivity|].
  rewrite IH. apply perm_swap.
Qed.

Lemma orderByTime_perm (l : list Appointment.t) : Permutation (orderByTime l) l.
Proof.
  induction l as [|x l IH]; simpl; [reflexivity|].
  unfold orderByTime in *. simpl. rewrite insertByTime_perm. now constructor.
Qed.

Lemma insertByTime_sorted (x : Appointment.t) (l : list Appointment.t) :
  StronglySorted earlierOrSame l -> StronglySorted earlierOrSame (insertByTime x l).
Proof.
  induction 1 as [|y l Hl IH Hy]; simpl.
  - repeat constructor.
  - destruct (Z.leb_spec (Appointment.appointmentDateTime x)
                         (Appointment.appointmentDateTime y)) as [Hxy|Hxy].
    + constructor; [now constructor|].
      constructor; [exact Hxy|].
      eapply Forall_impl; [|exact Hy]. unfold earlierOrSame. intros z Hz. lia.
    + constructor; [exact IH|].
      apply (Permutation_Forall (Permutation_sym (insertByTime_perm x l))).
      constructor; [unfold earlierOrSame; lia | exact Hy].
Qed.

Lemma orderByTime_sorted (l : list Appointment.t) :
  StronglySorted earlierOrSame (orderByTime l).
Proof.
  induction l as [|x l IH]; [constructor|].
  apply insertByTime_sorted, IH.
Qed.

(** X23. The appointment listings change nothing and are in ascending order
    of the appointment instant: findAll returns every appointment once,
    findByDoctor exactly the appointments of that doctor and findByPatient
    exactly those of that patient. *)
Theorem appointment_listings_sorted :
  forall (doctorId' patientId' : Z) (db : Db),
    exists all byDoctor byPatient,
      AppointmentService_findAll db = (Ok all, db)
      /\ Permutation all (appointments db)
      /\ StronglySorted earlierOrSame all
      /\ AppointmentService_findByDoctor doctorId' db = (Ok byDoctor, db)
      /\ StronglySorted earlierOrSame byDoctor
      /\ (forall a, In a byDoctor
                    <-> In a (appointments db) /\ Appointment.doctorId a = doctorId')
      /\ AppointmentService_findByPatient patientId' db = (Ok byPatient, db)
      /\ StronglySorted earlierOrSame byPatient
      /\ (forall a, In a byPatient
                    <-> In a (appointments db) /\ Appointment.patientId a = patientId').
Proof.
  intros doctorId' patientId' db.
  assert (Hsel : forall (f : Appointment.t -> bool) (P : Appointment.t -> Prop),
             (forall a, f a = true <-> P a) ->
             forall a, In a (orderByTime (filter f (appointments db)))
                       <-> In a (appointments db) /\ P a).
  { intros f P HfP a. split.
    - intros H. apply (Permutation_in _ (orderByTime_perm _)) in H.
      apply filter_In in H. destruct H as [Hin Hf]. split; [exact Hin | now apply HfP].
    - intros [Hin HP]. apply (Permutation_in _ (Permutation_sym (orderByTime_perm _))).
      apply filter_In. split; [exact Hin | now apply HfP]. }
  eexists; eexists; eexists.
  split; [reflexivity|].
  split; [rewrite filter_all_true; apply orderByTime_perm|].
  split; [apply orderByTime_sorted|].
  split; [reflexivity|].
  split; [apply orderByTime_sorted|].
  split; [apply Hsel; intros a; apply Z.eqb_eq|].
  split; [reflexivity|].
  split; [apply orderByTime_sorted|].
  apply Hsel. intros a. apply Z.eqb_eq.
Qed.
